(** * cadracks-ide: selection-driven dispatch, model record and configuration

    A shallow embedding of the Python sources of cadracks-ide
    ([cadracks_ide/utils.py], [cadracks_ide/model.py],
    [cadracks_ide/three_d.py], [cadracks_ide/cadracks_ide_ui.py]) together
    with the properties that the specification states about them.

    Conventions.
    - A Python [str] is a [string]; one [ascii] stands for one code point
      below 256, and the builtins [str.lower], [str.strip], [str.rfind],
      slicing and [in] are written out for that range.
    - Code that may raise returns a [res]; code that changes the viewer,
      the log or the busy indicator runs in the monad [ThreeD.M].
    - Calls into wx, pythonocc, aocxchange, cadracks_core and corelib are
      fields of the record [world]: the outcome of each call is an input. *)

From Stdlib Require Import ZArith NArith QArith Ascii String List Bool Lia.
From stdpp Require Import base option list strings gmap pretty.

Local Open Scope string_scope.
Local Open Scope Z_scope.

(** ** Python strings *)

Module PyStr.

Definition code (c : ascii) : N := N_of_ascii c.

(** [str.isupper] on one code point below 256: A-Z and the Latin-1
    capitals, the multiplication sign (215) excepted. *)
Definition is_upper (c : ascii) : bool :=
  let n := code c in
  ((65 <=? n) && (n <=? 90) || (192 <=? n) && (n <=? 222) && negb (n =? 215))%N.

Definition lower_char (c : ascii) : ascii :=
  if is_upper c then ascii_of_N (code c + 32) else c.

(** [s.lower()], as it acts on code points below 256: one character at a
    time. Beyond that range Python's [str.lower] can depend on the
    neighbouring characters and change the length; nothing is stated
    here about such names. *)
Fixpoint lower (s : string) : string :=
  match s with
  | EmptyString => EmptyString
  | String c r => String (lower_char c) (lower r)
  end.

(** [str.isspace] on one code point below 256. *)
Definition is_space (c : ascii) : bool :=
  let n := code c in
  ((9 <=? n) && (n <=? 13) || (28 <=? n) && (n <=? 32)
   || (n =? 133) || (n =? 160))%N.

Fixpoint lstrip (s : string) : string :=
  match s with
  | EmptyString => EmptyString
  | String c r => if is_space c then lstrip r else s
  end.

Fixpoint rstrip (s : string) : string :=
  match s with
  | EmptyString => EmptyString
  | String c r =>
      match rstrip r with
      | EmptyString => if is_space c then EmptyString else String c EmptyString
      | r' => String c r'
      end
  end.

(** [s.strip()] *)
Definition strip (s : string) : string := rstrip (lstrip s).

(** [s.rfind(c)] for a one-character [c]: the highest index holding [c],
    [-1] when there is none. *)
Fixpoint rfind (c : ascii) (s : string) : Z :=
  match s with
  | EmptyString => -1
  | String a r =>
      let j := rfind c r in
      if 0 <=? j then j + 1 else if Ascii.eqb a c then 0 else -1
  end.

Fixpoint drop (n : nat) (s : string) : string :=
  match n, s with
  | O, _ => s
  | S _, EmptyString => EmptyString
  | S n', String _ r => drop n' r
  end.

Fixpoint take (n : nat) (s : string) : string :=
  match n, s with
  | O, _ => EmptyString
  | S _, EmptyString => EmptyString
  | S n', String a r => String a (take n' r)
  end.

(** A slice bound as Python clamps it: a negative bound counts from the
    end, and everything is cut to [0 .. len s]. *)
Definition bound (i : Z) (s : string) : nat :=
  let n := Z.of_nat (String.length s) in
  Z.to_nat (Z.min n (if i <? 0 then Z.max 0 (n + i) else i)).

(** [s[i:]] *)
Definition slice_from (i : Z) (s : string) : string := drop (bound i s) s.

(** [s[:i]] *)
Definition slice_to (i : Z) (s : string) : string := take (bound i s) s.

(** [s[i:j]] *)
Definition slice (i j : Z) (s : string) : string :=
  take (bound j s - bound i s) (drop (bound i s) s).

(** [needle in s] *)
Fixpoint contains (needle s : string) : bool :=
  String.prefix needle s
  || match s with
     | EmptyString => false
     | String _ r => contains needle r
     end.

(** [x in [a, b, ...]] on strings *)
Definition str_in (x : string) (l : list string) : bool :=
  existsb (String.eqb x) l.

(** No occurrence of the character [c]. *)
Fixpoint lacks (c : ascii) (s : string) : bool :=
  match s with
  | EmptyString => true
  | String a r => negb (Ascii.eqb a c) && lacks c r
  end.

End PyStr.

(** ** Exceptions and results *)

Inductive exn_class :=
| KeyError | TypeError | ValueError | OSError | RuntimeError
| SystemExit | KeyboardInterrupt.

Record exn := Exn { exn_cls : exn_class; exn_msg : string }.

(** [isinstance(e, Exception)]: everything but the two classes that derive
    from [BaseException] directly. *)
Definition is_Exception (e : exn) : bool :=
  match exn_cls e with
  | SystemExit | KeyboardInterrupt => false
  | _ => true
  end.

Definition is_KeyError (e : exn) : bool :=
  match exn_cls e with KeyError => true | _ => false end.

Definition is_TypeError_or_KeyError (e : exn) : bool :=
  match exn_cls e with KeyError | TypeError => true | _ => false end.

Inductive res (A : Type) : Type :=
| Ok (a : A)
| Raise (e : exn).
Arguments Ok {A} a.
Arguments Raise {A} e.

(** ** [cadracks_ide/utils.py] *)

Module Utils.
Import PyStr.

Section GetFileExtension.
(** [os.path.isdir], a query of the file system. *)
Variable isdir : string -> bool.

Definition get_file_extension (filename : string) : string :=
  if negb (isdir filename) then
    let index := rfind "." filename in
    if index >? -1 then lower (strip (slice_from index filename))
    else ""
  else "directory".
End GetFileExtension.

End Utils.

(** ** [os.path.splitext]

    The handler of the 3D panel takes the extension from
    [os.path.splitext]; this is [genericpath._splitext] with the POSIX
    separators ([sep = "/"], no [altsep], [extsep = "."]). *)

Module OsPath.
Import PyStr.

(** The [while filenameIndex < dotIndex] loop that skips leading dots:
    [Some] is its [return] inside the loop, [None] is falling out of it. *)
Fixpoint skip_leading_dots (p : string) (dotIndex filenameIndex : Z)
    (steps : nat) : option (string * string) :=
  match steps with
  | O => None
  | S steps' =>
      if filenameIndex <? dotIndex then
        if negb (String.eqb (slice filenameIndex (filenameIndex + 1) p) ".")
        then Some (slice_to dotIndex p, slice_from dotIndex p)
        else skip_leading_dots p dotIndex (filenameIndex + 1) steps'
      else None
  end.

Definition splitext (p : string) : string * string :=
  let sepIndex := rfind "/" p in
  let dotIndex := rfind "." p in
  let fallthrough := (p, slice_to 0 p) in
  if dotIndex >? sepIndex then
    let filenameIndex := sepIndex + 1 in
    match skip_leading_dots p dotIndex filenameIndex
            (Z.to_nat (dotIndex - filenameIndex)) with
    | Some r => r
    | None => fallthrough
    end
  else fallthrough.

End OsPath.

(** ** What the application does to the outside *)

Inductive level := DEBUG | INFO | WARNING | ERROR.

#[global] Instance level_eq_dec : EqDecision level.
Proof. solve_decision. Defined.

(** The calls that bring geometry in. *)
Inductive importer :=
| imp_load_source                      (* imp.load_source(sel, sel) *)
| anchorable_part_from_py_script_call  (* cadracks_core.factories *)
| StepImporter_call                    (* aocxchange.step *)
| IgesImporter_call                    (* aocxchange.iges *)
| StlImporter_call                     (* aocxchange.stl *)
| json_load                            (* json.load of the library file *)
| anchorable_part_from_library_call (key : string)
| anchorable_part_from_stepzip_call.

Inductive event :=
| Log (l : level) (msg : string)       (* logger.debug/info/warning/error *)
| LogException (e : exn)               (* logger.exception(e) *)
| BusyInfo (msg : string)              (* busy_info = wx.BusyInfo(msg) *)
| DelBusyInfo                          (* del busy_info *)
| Import (i : importer) (path : string)
| FitAll                               (* self.viewer_display.FitAll() *)
| Layout                               (* self.Layout() *)
| MessageBox (text caption : string)   (* wx.MessageBox *)
| Notify (topic : string).             (* Atom.notify(topic, None) *)

(** ** [cadracks_ide/model.py] *)

Module Model.

(** [class Model(Atom)]: three [Str()] members. *)
Record t := { root_folder : string; selected : string; code : string }.

(** A fresh [Model()]: a [Str()] member starts as the empty string. *)
Definition new : t := {| root_folder := ""; selected := ""; code := "" |}.

(** What a method of the model can touch: the instance, and [sys.path]. *)
Record process := { self : t; sys_path : list string }.

Definition set_root_folder (root_folder_ : string) (st : process)
    : process * list event :=
  let self1 := {| root_folder := root_folder_;
                  selected := selected (self st);
                  code := code (self st) |} in
  ({| self := self1; sys_path := sys_path st ++ [root_folder_] |},
   [ Log DEBUG "Setting the root folder";
     Log DEBUG "Notify that root folder changed";
     Notify "root_folder_changed" ]).

Definition set_selected (selected_ : string) (st : process)
    : process * list event :=
  let self1 := {| root_folder := root_folder (self st);
                  selected := selected_;
                  code := code (self st) |} in
  ({| self := self1; sys_path := sys_path st |},
   [ Log DEBUG "Setting the selected item";
     Log DEBUG "Notify that selected item changed";
     Notify "selected_changed" ]).

(** The notifications among the emitted events. *)
Definition notifications (evs : list event) : list string :=
  omap (fun e => match e with Notify t => Some t | _ => None end) evs.

End Model.

(** ** The error monad of plain computations *)

#[global] Instance res_ret : MRet res := fun _ a => Ok a.
#[global] Instance res_bind : MBind res := fun _ _ f m =>
  match m with
  | Ok a => f a
  | Raise e => Raise e
  end.
#[global] Instance res_fmap : FMap res := fun _ _ f m =>
  match m with
  | Ok a => Ok (f a)
  | Raise e => Raise e
  end.

(** ** [cadracks_ide/cadracks_ide_ui.py]: the configuration *)

Module Ui.

(** What [configobj] stores under a key: a string, or a list of strings
    for a comma-separated value. *)
Inductive value := Scalar (s : string) | Values (l : list string).

(** An entry of the top level: a value, or a section of values. *)
Inductive entry := Leaf (v : value) | Sub (m : gmap string value).

(** The [config] argument of the frame: [None], or a [ConfigObj]. *)
Definition config := option (gmap string entry).

Section Settings.
(** [float(s)] and [int(s)] on a string; [None] is [ValueError]. A
    float is identified with the rational it denotes. *)
Variable float_of_str : string -> option Q.
Variable int_of_str : string -> option Z.

Record settings := {
  frame_maximize : bool;
  confirm_close : bool;
  viewer_background_colour : list Q;
  objects_transparency : Q;
  text_height : Z;
  text_colour : list Q
}.

(** [self.config[k]] *)
Definition config_getitem (c : config) (k : string) : res entry :=
  match c with
  | None => Raise (Exn TypeError "'NoneType' object is not subscriptable")
  | Some m =>
      match m !! k with
      | Some e => Ok e
      | None => Raise (Exn KeyError k)
      end
  end.

(** [e[k]] on what the first subscript gave. *)
Definition entry_getitem (e : entry) (k : string) : res value :=
  match e with
  | Sub m =>
      match m !! k with
      | Some v => Ok v
      | None => Raise (Exn KeyError k)
      end
  | Leaf (Scalar _) => Raise (Exn TypeError "string indices must be integers")
  | Leaf (Values _) => Raise (Exn TypeError "list indices must be integers")
  end.

(** [self.config[section][key]] *)
Definition lookup2 (c : config) (section key : string) : res value :=
  e ← config_getitem c section; entry_getitem e key.

(** [v == "True"] *)
Definition is_True (v : value) : bool :=
  match v with
  | Scalar s => String.eqb s "True"
  | Values _ => false
  end.

Definition float_str (s : string) : res Q :=
  match float_of_str s with
  | Some q => Ok q
  | None => Raise (Exn ValueError s)
  end.

(** [float(v)] *)
Definition float_ (v : value) : res Q :=
  match v with
  | Scalar s => float_str s
  | Values _ => Raise (Exn TypeError "float() argument must be a string or a number")
  end.

(** [int(v)] *)
Definition int_ (v : value) : res Z :=
  match v with
  | Scalar s =>
      match int_of_str s with
      | Some z => Ok z
      | None => Raise (Exn ValueError s)
      end
  | Values _ => Raise (Exn TypeError "int() argument must be a string or a number")
  end.

(** [tuple([float(el) for el in v])]: a string is iterated character by
    character. *)
Definition float_tuple (v : value) : res (list Q) :=
  match v with
  | Scalar s =>
      mapM float_str
        (List.map (fun c => String c EmptyString) (list_ascii_of_string s))
  | Values l => mapM float_str l
  end.

(** The body of the [try]. *)
Definition read_config (c : config) : res settings :=
  v1 ← lookup2 c "frame" "maximize";
  let frame_maximize_ := if is_True v1 then true else false in
  v2 ← lookup2 c "frame" "confirm_close";
  let confirm_close_ := if is_True v2 then true else false in
  v3 ← lookup2 c "viewer" "viewer_background_colour";
  viewer_background_colour_ ← float_tuple v3;
  v4 ← lookup2 c "viewer" "objects_transparency";
  objects_transparency_ ← float_ v4;
  v5 ← lookup2 c "viewer" "text_height";
  text_height_ ← int_ v5;
  v6 ← lookup2 c "viewer" "text_colour";
  text_colour_ ← float_tuple v6;
  mret {| frame_maximize := frame_maximize_;
          confirm_close := confirm_close_;
          viewer_background_colour := viewer_background_colour_;
          objects_transparency := objects_transparency_;
          text_height := text_height_;
          text_colour := text_colour_ |}.

(** The body of [except (TypeError, KeyError)]. *)
Definition defaults : settings :=
  {| frame_maximize := true;
     confirm_close := true;
     viewer_background_colour := [50 # 1; 50 # 1; 50 # 1]%Q;
     objects_transparency := (2 # 10)%Q;
     text_height := 20;
     text_colour := [0 # 1; 0 # 1; 0 # 1]%Q |}.

Definition no_config_msg : string :=
  "No config loaded (wrong ini file name or missing key), using program defaults".

(** The [# Config] block of [CadracksIdeFrame.__init__]: the settings
    the frame goes on with, and the message boxes shown. *)
Definition frame_config (c : config) : res settings * list event :=
  match read_config c with
  | Ok s => (Ok s, [])
  | Raise e =>
      if is_TypeError_or_KeyError e
      then (Ok defaults, [MessageBox no_config_msg "Warning"])
      else (Raise e, [])
  end.

(** [get_config]: [None] when the ini file does not exist, else what
    [configobj.ConfigObj(inifile)] parsed. *)
Definition get_config (exists_inifile : bool) (parsed : gmap string entry)
    : config * list event :=
  if negb exists_inifile
  then (None, [Log WARNING "No cadracks-ide.ini, using default values"])
  else (Some parsed, []).

End Settings.

End Ui.

(** ** [cadracks_ide/three_d.py] *)

Module ThreeD.
Import PyStr OsPath.

(** *** Geometry as the panel sees it *)

(** The identity of a [TopoDS_Shape]. *)
Definition shape := nat.

(** One property of a part: [{"value": ..., "unit": ...}], the value
    already through [str]. *)
Record prop_value := { value : string; unit_ : option string }.

(** [part.properties], a dict in insertion order. *)
Definition props := list (string * prop_value).

(** A part of cadracks_core: [transformed_shape] and
    [transformed_anchors] are computed properties and may raise; an
    anchor is kept by its name. *)
Record part := {
  transformed_shape : res shape;
  properties : props;
  transformed_anchors : res (list string)
}.

Record assembly := { _parts : list part }.

(** What [hasattr] and attribute access find on a loaded module. *)
Record module_ := {
  __shape__ : option shape;
  __shapes__ : option (list shape);
  __anchors__ : bool;
  __properties__ : bool;
  __assembly__ : option assembly;
  __assemblies__ : option (list assembly)
}.

(** *** The outside world *)

Record world := {
  isdir : string -> bool;                         (* os.path.isdir *)
  read_text : string -> res string;               (* open(p).read() *)
  is_valid_python : string -> bool;               (* corelib *)
  load_source : string -> res module_;            (* imp.load_source *)
  display_error : shape -> option exn;            (* the viewer refusing a shape *)
  anchorable_part_from_py_script : string -> res part;
  StepImporter_shapes : string -> res (list shape);
  IgesImporter_shapes : string -> res (list shape);
  StlImporter_shape : string -> res shape;
  (* json.load(json_file) followed by ["data"].keys() *)
  json_data_keys : string -> res (list string);
  (* the part, with BoundingBox(library_part.shape) where it is taken *)
  anchorable_part_from_library : string -> string -> res part;
  anchorable_part_from_stepzip : string -> res part
}.

(** *** The state of the panel *)

Inductive item :=
| ShapeItem (s : shape)
| VectorItem
| MessageItem (text : string).

Record panel := {
  shown : list item;                 (* what the viewport displays *)
  extra_info : gmap shape props;     (* the module-level dict *)
  busy_info : option string          (* the live wx.BusyInfo, if any *)
}.

(** *** Effects: state, events, exceptions *)

Definition M (A : Type) : Type := panel -> res A * panel * list event.

#[global] Instance M_ret : MRet M := fun _ a s => (Ok a, s, []).
#[global] Instance M_bind : MBind M := fun _ _ f m s =>
  match m s with
  | (Ok a, s1, t1) =>
      match f a s1 with
      | (r, s2, t2) => (r, s2, (t1 ++ t2)%list)
      end
  | (Raise e, s1, t1) => (Raise e, s1, t1)
  end.

Definition emit (e : event) : M unit := fun s => (Ok tt, s, [e]).
Definition raise {A} (e : exn) : M A := fun s => (Raise e, s, []).
Definition lift {A} (r : res A) : M A := fun s => (r, s, []).
Definition modify (f : panel -> panel) : M unit := fun s => (Ok tt, f s, []).

(** [try: body  except <catches> as e: handler e]. *)
Definition try_except (body : M unit) (catches : exn -> bool)
    (handler : exn -> M unit) : M unit := fun s =>
  match body s with
  | (Ok _, s1, t1) => (Ok tt, s1, t1)
  | (Raise e, s1, t1) =>
      if catches e then
        match handler e s1 with
        | (r, s2, t2) => (r, s2, (t1 ++ t2)%list)
        end
      else (Raise e, s1, t1)
  end.

(** [try: body  finally: final]: [final] runs however [body] ends; what
    [body] raised goes on afterwards unless [final] raises itself. *)
Definition try_finally (body : M unit) (final : M unit) : M unit := fun s =>
  match body s with
  | (r, s1, t1) =>
      match final s1 with
      | (Ok _, s2, t2) => (r, s2, (t1 ++ t2)%list)
      | (Raise e, s2, t2) => (Raise e, s2, (t1 ++ t2)%list)
      end
  end.

(** [for x in l: body x] *)
Fixpoint for_ {A} (l : list A) (body : A -> M unit) : M unit :=
  match l with
  | [] => mret tt
  | x :: l' => body x ;; for_ l' body
  end.

(** The outcome of running [m]. *)
Definition result {A} (o : res A * panel * list event) : res A := o.1.1.
Definition final {A} (o : res A * panel * list event) : panel := o.1.2.
Definition events {A} (o : res A * panel * list event) : list event := o.2.

(** The importer calls among the events. *)
Definition imports (evs : list event) : list importer :=
  omap (fun e => match e with Import i _ => Some i | _ => None end) evs.

Definition logged (l : level) (evs : list event) : list string :=
  omap (fun e => match e with
                 | Log l' m => if decide (l = l') then Some m else None
                 | _ => None
                 end) evs.

(** *** The viewer methods the handler calls *)

Section Panel.
Variable w : world.

(** [Wx3dViewer.erase_all] *)
Definition erase_all : M unit :=
  modify (fun p => {| shown := []; extra_info := extra_info p;
                      busy_info := busy_info p |}).

Definition show (i : item) : M unit :=
  modify (fun p => {| shown := (shown p ++ [i])%list;
                      extra_info := extra_info p;
                      busy_info := busy_info p |}).

(** [Wx3dViewer.display_shape]; colour and transparency do not reach
    the control flow and are left out. *)
Definition display_shape (s : shape) : M unit :=
  match display_error w s with
  | Some e => raise e
  | None => show (ShapeItem s)
  end.

Definition display_vector : M unit := show VectorItem.

Definition display_message (text : string) : M unit :=
  show (MessageItem text).

(** [busy_info = wx.BusyInfo(msg)] *)
Definition new_busy_info (msg : string) : M unit :=
  emit (BusyInfo msg) ;;
  modify (fun p => {| shown := shown p; extra_info := extra_info p;
                      busy_info := Some msg |}).

(** [del busy_info] *)
Definition del_busy_info : M unit :=
  emit DelBusyInfo ;;
  modify (fun p => {| shown := shown p; extra_info := extra_info p;
                      busy_info := None |}).

(** [ThreeDPanel.display_part] *)
Definition display_part (part_ : part) : M unit :=
  transformed_shape_ ← lift (transformed_shape part_);
  display_shape transformed_shape_ ;;
  modify (fun p => {| shown := shown p;
                      extra_info :=
                        <[transformed_shape_ := properties part_]> (extra_info p);
                      busy_info := busy_info p |}) ;;
  anchors ← lift (transformed_anchors part_);
  for_ anchors (fun anchor_name =>
    display_vector ;;
    display_vector ;;
    display_message anchor_name).

(** [ThreeDPanel.display_assembly] *)
Definition display_assembly (assembly_ : assembly) : M unit :=
  for_ (_parts assembly_) display_part.

(** [ThreeDPanel.display_assemblies] *)
Definition display_assemblies (assemblies : list assembly) : M unit :=
  for_ assemblies display_assembly.

(** *** [ThreeDPanel.on_selected_change] *)

(** [except Exception as e: logger.error(str(e))] *)
Definition log_error (e : exn) : M unit := emit (Log ERROR (exn_msg e)).

(** [except KeyError as ke: self.erase_all(); logger.exception(ke)] *)
Definition erase_and_log (ke : exn) : M unit :=
  erase_all ;; emit (LogException ke).

(** Lines 159-198: what is displayed of a loaded module. *)
Definition display_module (sel : string) (m : module_) : M unit :=
  erase_all ;;
  match __shapes__ m with
  | Some shapes =>
      emit (Log INFO (sel +:+ " has shapeS")) ;;
      for_ shapes display_shape
  | None =>
  match __assembly__ m with
  | Some assembly_ =>
      emit (Log INFO (sel +:+ " has assembly")) ;;
      try_except (display_assembly assembly_ ;; emit FitAll)
        is_KeyError erase_and_log
  | None =>
  match __assemblies__ m with
  | Some assemblies =>
      emit (Log INFO (sel +:+ " has assemblies")) ;;
      try_except (display_assemblies assemblies ;; emit FitAll)
        is_KeyError erase_and_log
  | None =>
  match __shape__ m with
  | Some shape_ =>
      (if negb (__anchors__ m) then
         emit (Log INFO (sel +:+ " has shape")) ;;
         display_shape shape_
       else
         emit (Log INFO (sel +:+ " has shape and anchors")) ;;
         emit (Import anchorable_part_from_py_script_call sel) ;;
         p ← lift (anchorable_part_from_py_script w sel);
         display_part p) ;;
      emit FitAll
  | None =>
      erase_all ;;
      emit (Log WARNING "Nothing to display")
  end end end end.

(** Lines 143-205: [ext == ".py"]. *)
Definition on_py (sel : string) : M unit :=
  content ← lift (read_text w sel);
  if is_valid_python w content then
    new_busy_info "Loading Python defined geometry ..." ;;
    try_finally
      (try_except
         (emit (Import imp_load_source sel) ;;
          m ← lift (load_source w sel);
          display_module sel m)
         is_Exception log_error)
      del_busy_info
  else
    emit (Log WARNING "Not a valid python file") ;;
    erase_all.

(** Lines 207-239: STEP and IGES, which differ in the importer and the
    busy message. *)
Definition on_shapes_file (msg : string) (call : importer)
    (importer_shapes : string -> res (list shape)) (sel : string) : M unit :=
  erase_all ;;
  new_busy_info msg ;;
  try_finally
    (try_except
       (emit (Import call sel) ;;
        shapes ← lift (importer_shapes sel);
        emit (Log INFO (pretty (length shapes) +:+ " shapes in " +:+ sel)) ;;
        for_ shapes (fun shape_ => display_shape shape_ ;; emit FitAll))
       is_Exception log_error)
    del_busy_info.

(** Lines 241-254: [ext == ".stl"]. *)
Definition on_stl (sel : string) : M unit :=
  erase_all ;;
  new_busy_info "Loading STL ..." ;;
  try_finally
    (try_except
       (emit (Import StlImporter_call sel) ;;
        shape_ ← lift (StlImporter_shape w sel);
        display_shape shape_ ;;
        emit FitAll)
       is_Exception log_error)
    del_busy_info.

(** Lines 256-323: [ext == ".json"], a parts library. The positions on
    the grid are placement only and are left out. *)
Definition on_json (sel : string) : M unit :=
  erase_all ;;
  content ← lift (read_text w sel);
  let is_library_file := contains "metadata" content in
  if is_library_file then
    new_busy_info "Loading parts library ..." ;;
    try_finally
      (try_except
         (emit (Import json_load sel) ;;
          keys ← lift (json_data_keys w sel);
          for_ keys (fun k =>
            emit (Import (anchorable_part_from_library_call k) sel) ;;
            _ ← lift (anchorable_part_from_library w sel k);
            mret tt) ;;
          for_ keys (fun k =>
            emit (Import (anchorable_part_from_library_call k) sel) ;;
            library_part ← lift (anchorable_part_from_library w sel k);
            display_part library_part ;;
            display_message k ;;
            emit FitAll))
         is_Exception log_error)
      del_busy_info
  else mret tt.

(** Lines 324-334: [ext == ".stepzip"]. *)
Definition on_stepzip (sel : string) : M unit :=
  erase_all ;;
  new_busy_info "Loading STEPZIP ..." ;;
  try_finally
    (try_except
       (emit (Import anchorable_part_from_stepzip_call sel) ;;
        p ← lift (anchorable_part_from_stepzip w sel);
        display_part p ;;
        emit FitAll)
       is_Exception log_error)
    del_busy_info.

Definition on_selected_change (model : Model.t) : M unit :=
  emit (Log DEBUG "Selection changed") ;;
  let sel := Model.selected model in
  emit (Log DEBUG ("sel : " +:+ sel)) ;;
  (if negb (isdir w sel) then
     let ext := lower (splitext sel).2 in
     emit (Log INFO ("File extension : " +:+ ext)) ;;
     if String.eqb ext ".py" then on_py sel
     else if str_in ext [".step"; ".stp"] then
       on_shapes_file "Loading STEP ..." StepImporter_call
         (StepImporter_shapes w) sel
     else if str_in ext [".iges"; ".igs"] then
       on_shapes_file "Loading IGES ..." IgesImporter_call
         (IgesImporter_shapes w) sel
     else if String.eqb ext ".stl" then on_stl sel
     else if String.eqb ext ".json" then on_json sel
     else if String.eqb ext ".stepzip" then on_stepzip sel
     else
       emit (Log ERROR ("File has an extension " +:+ ext
                        +:+ " that is not handled by the 3D panel")) ;;
       erase_all
   else erase_all) ;;
  emit Layout ;;
  emit (Log DEBUG "code change detected in 3D panel").

End Panel.

(** *** [display_extra_info], the select callback of the viewer *)

Section ExtraInfo.
(** A Python float with its subtraction, addition and division, the
    literal [2.], and [%f] formatting. *)
Variable F : Type.
Variables fsub fadd fdiv : F -> F -> F.
Variable two : F.
Variable fmt_f : F -> string.
(** [bbox = Bnd_Box(); brepbndlib_Add(shape, bbox); bbox.Get()] *)
Variable bbox_Get : shape -> F * F * F * F * F * F.
(** ["%s" % shp] *)
Variable str_shapes : list shape -> string.

Definition newline : string := String (ascii_of_nat 10) EmptyString.

(** ["\n".join(message)] *)
Fixpoint join_lines (message : list string) : string :=
  match message with
  | [] => EmptyString
  | [l] => l
  | l :: rest => l +:+ newline +:+ join_lines rest
  end.

(** The numbers the readout prints: [dx, dy, dz] and the centre. *)
Definition bbox_numbers (shape_ : shape) : (F * F * F) * (F * F * F) :=
  let '(xmin, ymin, zmin, xmax, ymax, zmax) := bbox_Get shape_ in
  let dx := fsub xmax xmin in
  let dy := fsub ymax ymin in
  let dz := fsub zmax zmin in
  ((dx, dy, dz),
   (fadd xmin (fdiv dx two), fadd ymin (fdiv dy two), fadd zmin (fdiv dz two))).

Definition bbox_lines (shape_ : shape) : list string :=
  let '((dx, dy, dz), (cx, cy, cz)) := bbox_numbers shape_ in
  [ "Bounding box :";
    "  dx=" +:+ fmt_f dx +:+ ", dy=" +:+ fmt_f dy +:+ ", dz=" +:+ fmt_f dz +:+ ".";
    "Bounding box center :";
    "  x=" +:+ fmt_f cx +:+ ", y=" +:+ fmt_f cy +:+ ", z=" +:+ fmt_f cz ].

Definition prop_line (kv : string * prop_value) : string :=
  " " +:+ kv.1 +:+ " : " +:+ value kv.2 +:+ " "
  +:+ match unit_ kv.2 with
      | Some u => "[" +:+ u +:+ "]"
      | None => ""
      end.

(** [extra_info[shape]] *)
Definition extra_info_getitem (shape_ : shape) : M props := fun s =>
  match extra_info s !! shape_ with
  | Some ps => (Ok ps, s, [])
  | None => (Raise (Exn KeyError (pretty shape_)), s, [])
  end.

Definition display_extra_info (shp : list shape) : M unit :=
  for_ shp (fun shape_ =>
    let message :=
      ([str_shapes shp; ""] ++ bbox_lines shape_ ++ [""])%list in
    ps ← extra_info_getitem shape_;
    emit (MessageBox (join_lines (message ++ List.map prop_line ps)%list)
                     "Part Info")).

End ExtraInfo.

End ThreeD.

(** ** The specification's vocabulary *)

Module Spec.
Import ThreeD.

(** The importers of the dispatch table. *)
Inductive import_action :=
| PythonScript | StepImport | IgesImport | StlImport
| PartsLibraryImport | StepzipImport.

(** The fixed mapping from the lowercased extension. *)
Definition dispatch_table : list (string * import_action) :=
  [ (".py", PythonScript);
    (".step", StepImport); (".stp", StepImport);
    (".iges", IgesImport); (".igs", IgesImport);
    (".stl", StlImport);
    (".json", PartsLibraryImport);
    (".stepzip", StepzipImport) ].

Definition action_of_ext (ext : string) : option import_action :=
  snd <$> List.find (fun kv => String.eqb ext kv.1) dispatch_table.

(** Which import action a call belongs to. *)
Definition action_of_importer (i : importer) : import_action :=
  match i with
  | imp_load_source | anchorable_part_from_py_script_call => PythonScript
  | StepImporter_call => StepImport
  | IgesImporter_call => IgesImport
  | StlImporter_call => StlImport
  | json_load | anchorable_part_from_library_call _ => PartsLibraryImport
  | anchorable_part_from_stepzip_call => StepzipImport
  end.

(** What the handler runs for an import action; [None] is an extension
    outside the table. *)
Definition run_action (w : world) (ext : string) (a : option import_action)
    (sel : string) : M unit :=
  match a with
  | Some PythonScript => on_py w sel
  | Some StepImport =>
      on_shapes_file w "Loading STEP ..." StepImporter_call
        (StepImporter_shapes w) sel
  | Some IgesImport =>
      on_shapes_file w "Loading IGES ..." IgesImporter_call
        (IgesImporter_shapes w) sel
  | Some StlImport => on_stl w sel
  | Some PartsLibraryImport => on_json w sel
  | Some StepzipImport => on_stepzip w sel
  | None =>
      emit (Log ERROR ("File has an extension " +:+ ext
                       +:+ " that is not handled by the 3D panel")) ;;
      erase_all
  end.

(** The display actions on a loaded module. *)
Inductive display_action :=
| DisplayShapes (shapes : list shape)
| DisplayAssembly (a : assembly)
| DisplayAssemblies (l : list assembly)
| DisplayBareShape (s : shape)
| DisplayAnchorablePart
| ClearWithWarning.

(** The attributes in their order of precedence, each with the action
    it asks for when the module defines it. *)
Definition candidates (m : module_) : list (option display_action) :=
  [ DisplayShapes <$> __shapes__ m;
    DisplayAssembly <$> __assembly__ m;
    DisplayAssemblies <$> __assemblies__ m;
    (fun s => if __anchors__ m then DisplayAnchorablePart
              else DisplayBareShape s) <$> __shape__ m ].

(** The first attribute present wins; with none, clear and warn. *)
Definition chosen (m : module_) : display_action :=
  match omap id (candidates m) with
  | a :: _ => a
  | [] => ClearWithWarning
  end.

Definition perform (w : world) (sel : string) (a : display_action) : M unit :=
  match a with
  | DisplayShapes shapes =>
      emit (Log INFO (sel +:+ " has shapeS")) ;;
      for_ shapes (display_shape w)
  | DisplayAssembly a =>
      emit (Log INFO (sel +:+ " has assembly")) ;;
      try_except (display_assembly w a ;; emit FitAll) is_KeyError erase_and_log
  | DisplayAssemblies l =>
      emit (Log INFO (sel +:+ " has assemblies")) ;;
      try_except (display_assemblies w l ;; emit FitAll) is_KeyError erase_and_log
  | DisplayBareShape s =>
      (emit (Log INFO (sel +:+ " has shape")) ;;
       display_shape w s) ;;
      emit FitAll
  | DisplayAnchorablePart =>
      (emit (Log INFO (sel +:+ " has shape and anchors")) ;;
       emit (Import anchorable_part_from_py_script_call sel) ;;
       p ← lift (anchorable_part_from_py_script w sel);
       display_part w p) ;;
      emit FitAll
  | ClearWithWarning =>
      erase_all ;;
      emit (Log WARNING "Nothing to display")
  end.

(** The events keep the busy indicator around the imports: an indicator
    is created only when none is live and an importer call follows at
    once, an importer is called only under a live indicator, and none is
    live at the end. *)
Fixpoint busy_guarded (active : bool) (evs : list event) : bool :=
  match evs with
  | [] => negb active
  | BusyInfo _ :: rest =>
      negb active
      && match rest with Import _ _ :: _ => true | _ => false end
      && busy_guarded true rest
  | DelBusyInfo :: rest => active && busy_guarded false rest
  | Import _ _ :: rest => active && busy_guarded active rest
  | _ :: rest => busy_guarded active rest
  end.

End Spec.

(** ** Reasoning about runs *)

Module Logic.
Import ThreeD.

(** Every event [m] emits satisfies [P], from whatever state. *)
Definition emits {A} (P : event -> Prop) (m : M A) : Prop :=
  forall s, Forall P (events (m s)).

(** [m] leaves the busy indicator as it found it. *)
Definition keeps_busy {A} (m : M A) : Prop :=
  forall s, busy_info (final (m s)) = busy_info s.

(** Neither creates nor deletes a busy indicator. *)
Definition quiet (e : event) : Prop :=
  match e with
  | BusyInfo _ | DelBusyInfo => False
  | _ => True
  end.

(** Quiet, and no importer call either. *)
Definition calm (e : event) : Prop :=
  match e with
  | BusyInfo _ | DelBusyInfo | Import _ _ => False
  | _ => True
  end.

(** Importer calls, if any, belong to the action [a]. *)
Definition imports_only (a : option Spec.import_action) (e : event) : Prop :=
  match e with
  | Import i _ => a = Some (Spec.action_of_importer i)
  | _ => True
  end.

(** [m] respects the busy discipline when started without a live
    indicator: its events can be skipped by [busy_guarded false], and it
    ends without a live indicator. *)
Definition disciplined {A} (m : M A) : Prop :=
  forall s,
    (forall rest, Spec.busy_guarded false (events (m s) ++ rest)%list
                  = Spec.busy_guarded false rest)
    /\ (busy_info s = None -> busy_info (final (m s)) = None).

(** The panel after [erase_all]. *)
Definition erased (s : panel) : panel :=
  {| shown := []; extra_info := extra_info s; busy_info := busy_info s |}.

End Logic.

(** ** Concrete selections *)

Module Scenario.
Import ThreeD.

Definition a_part : part :=
  {| transformed_shape := Ok 5%nat;
     properties := [("mass", {| value := "12.5"; unit_ := Some "kg" |})];
     transformed_anchors := Ok ["top"] |}.

(** A file system holding files only, where every importer succeeds. *)
Definition fair (content : string) (valid : bool) (m : module_) : world :=
  {| isdir := fun _ => false;
     read_text := fun _ => Ok content;
     is_valid_python := fun _ => valid;
     load_source := fun _ => Ok m;
     display_error := fun _ => None;
     anchorable_part_from_py_script := fun _ => Ok a_part;
     StepImporter_shapes := fun _ => Ok [1%nat; 2%nat];
     IgesImporter_shapes := fun _ => Ok [3%nat];
     StlImporter_shape := fun _ => Ok 4%nat;
     json_data_keys := fun _ => Ok ["bolt"; "nut"];
     anchorable_part_from_library := fun _ _ => Ok a_part;
     anchorable_part_from_stepzip := fun _ => Ok a_part |}.

(** A module that defines all six attributes. *)
Definition full_module : module_ :=
  {| __shape__ := Some 1%nat;
     __shapes__ := Some [1%nat; 2%nat];
     __anchors__ := true;
     __properties__ := true;
     __assembly__ := Some {| _parts := [a_part] |};
     __assemblies__ := Some [ {| _parts := [a_part] |} ] |}.

Definition empty_module : module_ :=
  {| __shape__ := None; __shapes__ := None; __anchors__ := false;
     __properties__ := false; __assembly__ := None;
     __assemblies__ := None |}.

(** The same, but the script raises when it is loaded. *)
Definition failing_script (content : string) (e : exn) : world :=
  {| isdir := fun _ => false;
     read_text := fun _ => Ok content;
     is_valid_python := fun _ => true;
     load_source := fun _ => Raise e;
     display_error := fun _ => None;
     anchorable_part_from_py_script := fun _ => Raise e;
     StepImporter_shapes := fun _ => Ok [1%nat; 2%nat];
     IgesImporter_shapes := fun _ => Ok [3%nat];
     StlImporter_shape := fun _ => Ok 4%nat;
     json_data_keys := fun _ => Ok ["bolt"; "nut"];
     anchorable_part_from_library := fun _ _ => Ok a_part;
     anchorable_part_from_stepzip := fun _ => Ok a_part |}.

(** A file that cannot be read. *)
Definition unreadable (e : exn) : world :=
  {| isdir := fun _ => false;
     read_text := fun _ => Raise e;
     is_valid_python := fun _ => true;
     load_source := fun _ => Ok empty_module;
     display_error := fun _ => None;
     anchorable_part_from_py_script := fun _ => Ok a_part;
     StepImporter_shapes := fun _ => Ok [1%nat; 2%nat];
     IgesImporter_shapes := fun _ => Ok [3%nat];
     StlImporter_shape := fun _ => Ok 4%nat;
     json_data_keys := fun _ => Ok ["bolt"; "nut"];
     anchorable_part_from_library := fun _ _ => Ok a_part;
     anchorable_part_from_stepzip := fun _ => Ok a_part |}.

Definition select (path : string) : Model.t :=
  {| Model.root_folder := "/project"; Model.selected := path;
     Model.code := "" |}.

(** The panel at start-up, and the panel showing one earlier shape. *)
Definition fresh : panel :=
  {| shown := []; extra_info := ∅; busy_info := None |}.

Definition showing (s : shape) : panel :=
  {| shown := [ShapeItem s]; extra_info := ∅; busy_info := None |}.

End Scenario.

(** ** [cadracks_ide/cadracks_ide_ui.py]: the handlers of the frame *)

Module Frame.

(** What a handler of the frame asks of the toolkit and of the process. *)
Inductive action :=
| ShowConfirmDialog        (* wx.MessageDialog(...).ShowModal() *)
| DestroyDialog            (* dlg.Destroy() *)
| DestroyFrame             (* self.Destroy() *)
| SysExit (status : Z).    (* sys.exit(status) *)

(** [CadracksIdeFrame.on_close]; [answer_ok] is [result == wx.ID_OK]. *)
Definition on_close (confirm_close : bool) (answer_ok : bool) : list action :=
  if confirm_close then
    ([ShowConfirmDialog; DestroyDialog]
     ++ (if answer_ok then [DestroyFrame; SysExit 0] else []))%list
  else [DestroyFrame; SysExit 0].

(** Does the handler end the process? *)
Definition exits (l : list action) : bool :=
  existsb (fun a => match a with SysExit _ => true | _ => false end) l.

Definition asks (l : list action) : bool :=
  existsb (fun a => match a with ShowConfirmDialog => true | _ => false end) l.

(** [CadracksIdeFrame.on_open]; [choice] is the path of the directory
    dialog when it was closed with OK, [None] otherwise. *)
Definition on_open (choice : option string) (st : Model.process)
    : Model.process * list event :=
  match choice with
  | Some path =>
      let '(st1, ev1) := Model.set_root_folder path st in
      let '(st2, ev2) := Model.set_selected path st1 in
      (st2, (ev1 ++ ev2)%list)
  | None => (st, [])
  end.

End Frame.

(** ** Relations between the panel before and after a run *)

Module Registry.
Import ThreeD.

(** [m] ends in a state related by [R] to the one it started from. *)
Definition preserves {A} (R : panel -> panel -> Prop) (m : M A) : Prop :=
  forall s, R s (final (m s)).

(** The same entries in [extra_info]. *)
Definition same_registry (s s' : panel) : Prop :=
  extra_info s' = extra_info s.

(** Every shape with an entry still has one. *)
Definition registry_grows (s s' : panel) : Prop :=
  forall k, is_Some (extra_info s !! k) -> is_Some (extra_info s' !! k).

(** The panel with another busy indicator. *)
Definition with_busy (b : option string) (s : panel) : panel :=
  {| shown := shown s; extra_info := extra_info s; busy_info := b |}.

(** What [display_part] adds to the viewport for the anchors. *)
Definition anchor_items (anchors : list string) : list item :=
  flat_map (fun a => [VectorItem; VectorItem; MessageItem a]) anchors.

(** A part that can be displayed: its shape and anchors are computed and
    the viewer accepts the shape. *)
Definition displayable (w : world) (p : part) : Prop :=
  exists sh an,
    transformed_shape p = Ok sh
    /\ display_error w sh = None
    /\ transformed_anchors p = Ok an.

End Registry.

(** ** An import and its busy indicator *)

Module Window.
Import ThreeD.

(** The text of the busy indicator of each import action. *)
Definition busy_message (a : Spec.import_action) : string :=
  match a with
  | Spec.PythonScript => "Loading Python defined geometry ..."
  | Spec.StepImport => "Loading STEP ..."
  | Spec.IgesImport => "Loading IGES ..."
  | Spec.StlImport => "Loading STL ..."
  | Spec.PartsLibraryImport => "Loading parts library ..."
  | Spec.StepzipImport => "Loading STEPZIP ..."
  end.

(** The importer each import action calls first. *)
Definition first_call (a : Spec.import_action) : importer :=
  match a with
  | Spec.PythonScript => imp_load_source
  | Spec.StepImport => StepImporter_call
  | Spec.IgesImport => IgesImporter_call
  | Spec.StlImport => StlImporter_call
  | Spec.PartsLibraryImport => json_load
  | Spec.StepzipImport => anchorable_part_from_stepzip_call
  end.

(** The test of the content in front of the Python and parts-library
    imports; the other imports have none. *)
Definition gate (w : world) (a : Spec.import_action) (sel : string) : Prop :=
  match a with
  | Spec.PythonScript =>
      exists content,
        read_text w sel = Ok content /\ is_valid_python w content = true
  | Spec.PartsLibraryImport =>
      exists content,
        read_text w sel = Ok content
        /\ PyStr.contains "metadata" content = true
  | _ => True
  end.

(** The panel an import starts from: every branch but the Python one
    empties the viewport before it creates the indicator. *)
Definition before (a : Spec.import_action) (s : panel) : panel :=
  match a with
  | Spec.PythonScript => s
  | _ => Logic.erased s
  end.

(** What each import does after its first importer call, inside the
    [try]. *)
Definition import_body (w : world) (a : Spec.import_action) (sel : string)
    : M unit :=
  match a with
  | Spec.PythonScript =>
      m ← lift (load_source w sel);
      display_module w sel m
  | Spec.StepImport =>
      shapes ← lift (StepImporter_shapes w sel);
      emit (Log INFO (pretty (length shapes) +:+ " shapes in " +:+ sel)) ;;
      for_ shapes (fun shape_ => display_shape w shape_ ;; emit FitAll)
  | Spec.IgesImport =>
      shapes ← lift (IgesImporter_shapes w sel);
      emit (Log INFO (pretty (length shapes) +:+ " shapes in " +:+ sel)) ;;
      for_ shapes (fun shape_ => display_shape w shape_ ;; emit FitAll)
  | Spec.StlImport =>
      shape_ ← lift (StlImporter_shape w sel);
      display_shape w shape_ ;;
      emit FitAll
  | Spec.PartsLibraryImport =>
      keys ← lift (json_data_keys w sel);
      for_ keys (fun k =>
        emit (Import (anchorable_part_from_library_call k) sel) ;;
        _ ← lift (anchorable_part_from_library w sel k);
        mret tt) ;;
      for_ keys (fun k =>
        emit (Import (anchorable_part_from_library_call k) sel) ;;
        library_part ← lift (anchorable_part_from_library w sel k);
        display_part w library_part ;;
        display_message k ;;
        emit FitAll)
  | Spec.StepzipImport =>
      p ← lift (anchorable_part_from_stepzip w sel);
      display_part w p ;;
      emit FitAll
  end.

(** How the [try] ends, given how its body ended: [except Exception]
    turns an exception of that class into a normal end. *)
Definition outcome (r : res unit) : res unit :=
  match r with
  | Ok _ => Ok tt
  | Raise e => if is_Exception e then Ok tt else Raise e
  end.

(** What [except Exception] logs. *)
Definition caught_log (r : res unit) : list event :=
  match r with
  | Ok _ => []
  | Raise e => if is_Exception e then [Log ERROR (exn_msg e)] else []
  end.

(** What the handler still does after the import: nothing when an
    exception goes out. *)
Definition epilogue (r : res unit) : list event :=
  match r with
  | Ok _ => [Layout; Log DEBUG "code change detected in 3D panel"]
  | Raise _ => []
  end.

End Window.

(** * Properties *)

(** ** Strings *)

Section StringFacts.
Import PyStr.

Lemma length_app (a b : string) :
  String.length (a +:+ b) = (String.length a + String.length b)%nat.
Proof. induction a as [|c a IH]; simpl; [reflexivity | now rewrite IH]. Qed.

Lemma drop_app (a b : string) : drop (String.length a) (a +:+ b) = b.
Proof.
  induction a as [|c a IH]; simpl; [now destruct b | exact IH].
Qed.

Lemma bound_prefix (a b : string) :
  bound (Z.of_nat (String.length a)) (a +:+ b) = String.length a.
Proof.
  unfold bound. rewrite length_app.
  destruct (Z.ltb_spec (Z.of_nat (String.length a)) 0); lia.
Qed.

Lemma slice_from_app (a b : string) :
  slice_from (Z.of_nat (String.length a)) (a +:+ b) = b.
Proof. unfold slice_from. rewrite bound_prefix. apply drop_app. Qed.

Lemma rfind_ge (c : ascii) (s : string) : -1 <= rfind c s.
Proof.
  induction s as [|a s IH]; simpl; [lia|].
  destruct (Z.leb_spec 0 (rfind c s)); [lia|].
  destruct (Ascii.eqb a c); lia.
Qed.

Lemma rfind_lacks (c : ascii) (s : string) :
  lacks c s = true -> rfind c s = -1.
Proof.
  induction s as [|a s IH]; simpl; [reflexivity|].
  intros [Hne Hs]%andb_true_iff. rewrite (IH Hs). simpl.
  destruct (Ascii.eqb a c); [discriminate | reflexivity].
Qed.

(** A string has no [c], or splits at its last [c]. *)
Lemma last_split (c : ascii) (s : string) :
  lacks c s = true
  \/ exists stem tail, s = stem +:+ String c tail /\ lacks c tail = true.
Proof.
  induction s as [|a s [IH | (stem & tail & -> & Ht)]].
  - now left.
  - simpl. destruct (Ascii.eqb_spec a c) as [->|Hne].
    + right. exists EmptyString, s. now split.
    + left. now rewrite IH.
  - right. exists (String a stem), tail. now split.
Qed.

Lemma rfind_last (c : ascii) (pre suf : string) :
  lacks c suf = true ->
  rfind c (pre +:+ String c suf) = Z.of_nat (String.length pre).
Proof.
  intros Hs. induction pre as [|a pre IH].
  - simpl. rewrite (rfind_lacks _ _ Hs). simpl.
    now rewrite Ascii.eqb_refl.
  - change (rfind c (String a pre +:+ String c suf))
      with (let j := rfind c (pre +:+ String c suf) in
            if 0 <=? j then j + 1 else if Ascii.eqb a c then 0 else -1).
    rewrite IH. cbv zeta.
    destruct (Z.leb_spec 0 (Z.of_nat (String.length pre)));
      cbn [String.length]; lia.
Qed.

Lemma prefix_app (n s : string) :
  String.prefix n s = true <-> exists post, s = n +:+ post.
Proof.
  revert s. induction n as [|c n IH]; intros s.
  - split; [intros _; now exists s | now destruct s].
  - destruct s as [|d s].
    + split; [discriminate | intros [post H]; discriminate].
    + cbn [String.prefix String.append].
      destruct (Ascii.ascii_dec c d) as [->|Hne].
      * rewrite IH. split; intros [post H]; exists post.
        -- now rewrite H.
        -- now injection H.
      * split; [discriminate | intros [post H]; injection H; congruence].
Qed.

(** [contains] is the substring test. *)
Lemma contains_spec (n s : string) :
  contains n s = true <-> exists pre post, s = pre +:+ n +:+ post.
Proof.
  induction s as [|c s IH].
  - cbn [contains]. rewrite orb_false_r, prefix_app. split.
    + intros [post H]. now exists EmptyString, post.
    + intros ([|d pre] & post & H); [now exists post | discriminate].
  - cbn [contains]. rewrite orb_true_iff, prefix_app, IH. split.
    + intros [[post H] | (pre & post & H)].
      * now exists EmptyString, post.
      * exists (String c pre), post. simpl. now rewrite H.
    + intros ([|d pre] & post & H).
      * left. now exists post.
      * right. exists pre, post. simpl in H. now injection H.
Qed.

Lemma lower_char_space (c : ascii) : is_space (lower_char c) = is_space c.
Proof.
  destruct c as [[] [] [] [] [] [] [] []]; reflexivity.
Qed.

Lemma lower_lstrip (s : string) : lower (lstrip s) = lstrip (lower s).
Proof.
  induction s as [|c s IH]; simpl; [reflexivity|].
  rewrite lower_char_space. destruct (is_space c); [exact IH | reflexivity].
Qed.

Lemma lower_rstrip (s : string) : lower (rstrip s) = rstrip (lower s).
Proof.
  induction s as [|c s IH]; simpl; [reflexivity|].
  rewrite <- IH, lower_char_space.
  destruct (rstrip s); simpl; [destruct (is_space c)|]; reflexivity.
Qed.

(** Lowering and stripping commute: the order the specification names
    them in does not matter. *)
Lemma lower_strip (s : string) : lower (strip s) = strip (lower s).
Proof. unfold strip. now rewrite lower_rstrip, lower_lstrip. Qed.

End StringFacts.

(** ** [get_file_extension] *)

(** C10. On a directory [get_file_extension] answers ["directory"]; on a
    file name that is not a directory and has a period it answers the
    part from the last period on, period included, stripped of
    surrounding whitespace and lowercased; on one without a period it
    answers the empty string. *)
Theorem get_file_extension_cases (isdir : string -> bool) (filename : string) :
  (isdir filename = true ->
   Utils.get_file_extension isdir filename = "directory")
  /\ (isdir filename = false ->
      forall stem tail,
        filename = stem +:+ String "." tail ->
        PyStr.lacks "." tail = true ->
        Utils.get_file_extension isdir filename
        = PyStr.lower (PyStr.strip (String "." tail)))
  /\ (isdir filename = false ->
      PyStr.lacks "." filename = true ->
      Utils.get_file_extension isdir filename = "").
Proof.
  unfold Utils.get_file_extension. repeat split.
  - now intros ->.
  - intros -> stem tail -> Ht. cbn [negb].
    rewrite (rfind_last _ stem tail Ht).
    destruct (Z.gtb_spec (Z.of_nat (String.length stem)) (-1)); [|lia].
    now rewrite slice_from_app.
  - intros -> Hn. cbn [negb]. now rewrite (rfind_lacks _ _ Hn).
Qed.

Lemma get_file_extension_cases_witness :
  Utils.get_file_extension (fun _ => true) "parts.d" = "directory"
  /\ Utils.get_file_extension (fun _ => false) "v1.2/Bracket.STEP " = ".step"
  /\ Utils.get_file_extension (fun _ => false) "README" = "".
Proof.
  split; [|split].
  - apply (get_file_extension_cases (fun _ => true) "parts.d"). reflexivity.
  - apply (proj1 (proj2 (get_file_extension_cases (fun _ => false)
                           "v1.2/Bracket.STEP "))
             eq_refl "v1.2/Bracket" "STEP "); reflexivity.
  - apply (get_file_extension_cases (fun _ => false) "README"); reflexivity.
Defined.

(** ** The model *)

(** C8. A model is its three string fields [root_folder], [selected] and
    [code]. [set_root_folder r] stores [r] in [root_folder], emits the one
    notification ["root_folder_changed"] and leaves [selected] and [code]
    as they were; [set_selected s] stores [s] in [selected], emits the one
    notification ["selected_changed"] and leaves [root_folder] and [code]
    as they were. *)
Theorem model_setters_frame (st : Model.process) (r s : string) :
  (forall m m' : Model.t,
      Model.root_folder m = Model.root_folder m' ->
      Model.selected m = Model.selected m' ->
      Model.code m = Model.code m' -> m = m')
  /\ (let out := Model.set_root_folder r st in
      Model.root_folder (Model.self out.1) = r
      /\ Model.selected (Model.self out.1) = Model.selected (Model.self st)
      /\ Model.code (Model.self out.1) = Model.code (Model.self st)
      /\ Model.notifications out.2 = ["root_folder_changed"])
  /\ (let out := Model.set_selected s st in
      Model.selected (Model.self out.1) = s
      /\ Model.root_folder (Model.self out.1) = Model.root_folder (Model.self st)
      /\ Model.code (Model.self out.1) = Model.code (Model.self st)
      /\ Model.notifications out.2 = ["selected_changed"]).
Proof.
  split; [|split].
  - intros [a b c] [a' b' c']; simpl; congruence.
  - repeat split.
  - repeat split.
Qed.

(** ** The configuration *)

Section ConfigFacts.
Variable float_of_str : string -> option Q.
Variable int_of_str : string -> option Z.

(** Without a configuration the first subscript raises [TypeError]. *)
Lemma read_config_None :
  Ui.read_config float_of_str int_of_str None
  = Raise (Exn TypeError "'NoneType' object is not subscriptable").
Proof. reflexivity. Qed.

(** A configuration without the [frame] section raises [KeyError]. *)
Lemma read_config_no_frame (m : gmap string Ui.entry) :
  m !! "frame" = None ->
  Ui.read_config float_of_str int_of_str (Some m)
  = Raise (Exn KeyError "frame").
Proof.
  intros H. unfold Ui.read_config, Ui.lookup2, Ui.config_getitem.
  now rewrite H.
Qed.

(** What [except (TypeError, KeyError)] does not catch goes on. *)
Lemma frame_config_propagates (c : Ui.config) (e : exn) :
  Ui.read_config float_of_str int_of_str c = Raise e ->
  is_TypeError_or_KeyError e = false ->
  Ui.frame_config float_of_str int_of_str c = (Raise e, []).
Proof. intros H He. unfold Ui.frame_config. now rewrite H, He. Qed.

End ConfigFacts.

(** C9. When there is no cadracks-ide.ini ([get_config] gives [None]), or
    reading the keys of the loaded configuration raises [TypeError] or
    [KeyError], the frame goes on with the built-in defaults: maximize
    and confirm-close true, background (50, 50, 50), transparency 0.2,
    text height 20, text colour (0, 0, 0). *)
Theorem frame_config_defaults
    (float_of_str : string -> option Q) (int_of_str : string -> option Z)
    (exists_inifile : bool) (parsed : gmap string Ui.entry) :
  let c := (Ui.get_config exists_inifile parsed).1 in
  (exists_inifile = false
   \/ exists e, Ui.read_config float_of_str int_of_str c = Raise e
                /\ is_TypeError_or_KeyError e = true) ->
  exists s,
    (Ui.frame_config float_of_str int_of_str c).1 = Ok s
    /\ Ui.frame_maximize s = true
    /\ Ui.confirm_close s = true
    /\ Ui.viewer_background_colour s = [50 # 1; 50 # 1; 50 # 1]%Q
    /\ Ui.objects_transparency s = (2 # 10)%Q
    /\ Ui.text_height s = 20
    /\ Ui.text_colour s = [0 # 1; 0 # 1; 0 # 1]%Q.
Proof.
  intros c H. exists Ui.defaults. split; [|repeat split].
  destruct H as [-> | (e & He & Hc)].
  - reflexivity.
  - unfold Ui.frame_config. now rewrite He, Hc.
Qed.

Lemma frame_config_defaults_witness :
  (exists s,
      (Ui.frame_config (fun _ => None) (fun _ => None) None).1 = Ok s
      /\ Ui.frame_maximize s = true
      /\ Ui.confirm_close s = true
      /\ Ui.viewer_background_colour s = [50 # 1; 50 # 1; 50 # 1]%Q
      /\ Ui.objects_transparency s = (2 # 10)%Q
      /\ Ui.text_height s = 20
      /\ Ui.text_colour s = [0 # 1; 0 # 1; 0 # 1]%Q)
  /\ (exists s,
      (Ui.frame_config (fun _ => None) (fun _ => None)
         (Some {[ "frame" := Ui.Sub {[ "maximize" := Ui.Scalar "False" ]} ]})).1
      = Ok s
      /\ Ui.frame_maximize s = true
      /\ Ui.confirm_close s = true
      /\ Ui.viewer_background_colour s = [50 # 1; 50 # 1; 50 # 1]%Q
      /\ Ui.objects_transparency s = (2 # 10)%Q
      /\ Ui.text_height s = 20
      /\ Ui.text_colour s = [0 # 1; 0 # 1; 0 # 1]%Q).
Proof.
  split.
  - apply (frame_config_defaults (fun _ => None) (fun _ => None) false ∅).
    left. reflexivity.
  - apply (frame_config_defaults (fun _ => None) (fun _ => None) true
             {[ "frame" := Ui.Sub {[ "maximize" := Ui.Scalar "False" ]} ]}).
    right. exists (Exn KeyError "confirm_close"). split; reflexivity.
Defined.

(** ** Runs of the panel *)

Section RunFacts.
Import ThreeD Logic.
Local Open Scope list_scope.

Ltac run_of m s := destruct (m s) as [[[?|?] ?] ?] eqn:?.

(** *** Events *)

Lemma emits_ret {A} P (a : A) : emits P (mret a).
Proof. intros s. constructor. Qed.

Lemma emits_emit P e : P e -> emits P (emit e).
Proof. intros H s. now repeat constructor. Qed.

Lemma emits_raise {A} P e : emits P (@raise A e).
Proof. intros s. constructor. Qed.

Lemma emits_lift {A} P (r : res A) : emits P (lift r).
Proof. intros s. constructor. Qed.

Lemma emits_modify P f : emits P (modify f).
Proof. intros s. constructor. Qed.

Lemma emits_bind {A B} P (m : M A) (f : A -> M B) :
  emits P m -> (forall a, emits P (f a)) -> emits P (m ≫= f).
Proof.
  intros Hm Hf s. specialize (Hm s).
  unfold emits, events, mbind, M_bind in *. run_of m s; simpl in *; [|assumption].
  specialize (Hf a p). destruct (f a p) as [[r s2] t2]. simpl in *.
  now apply Forall_app.
Qed.

Lemma emits_try_except P body catches handler :
  emits P body -> (forall e, emits P (handler e)) ->
  emits P (try_except body catches handler).
Proof.
  intros Hb Hh s. specialize (Hb s).
  unfold emits, events, try_except in *. run_of body s; simpl in *; [assumption|].
  destruct (catches e); [|assumption].
  specialize (Hh e p). destruct (handler e p) as [[r s2] t2]. simpl in *.
  now apply Forall_app.
Qed.

Lemma emits_try_finally P body fin :
  emits P body -> emits P fin -> emits P (try_finally body fin).
Proof.
  intros Hb Hf s. specialize (Hb s).
  unfold emits, events, try_finally in *. destruct (body s) as [[r s1] t1].
  specialize (Hf s1). destruct (fin s1) as [[[|] s2] t2]; simpl in *;
    now apply Forall_app.
Qed.

Lemma emits_for {A} P (l : list A) (body : A -> M unit) :
  (forall x, emits P (body x)) -> emits P (for_ l body).
Proof.
  intros Hb. induction l as [|x l IH]; simpl.
  - apply emits_ret.
  - apply emits_bind; [apply Hb | intros _; exact IH].
Qed.

Lemma emits_weaken {A} (P Q : event -> Prop) (m : M A) :
  (forall e, P e -> Q e) -> emits P m -> emits Q m.
Proof. intros HPQ Hm s. eapply Forall_impl; [apply Hm | exact HPQ]. Qed.

(** *** The busy indicator *)

Lemma keeps_ret {A} (a : A) : keeps_busy (mret a).
Proof. now intros s. Qed.

Lemma keeps_emit e : keeps_busy (emit e).
Proof. now intros s. Qed.

Lemma keeps_raise {A} e : keeps_busy (@raise A e).
Proof. now intros s. Qed.

Lemma keeps_lift {A} (r : res A) : keeps_busy (lift r).
Proof. now intros s. Qed.

Lemma keeps_modify f :
  (forall p, busy_info (f p) = busy_info p) -> keeps_busy (modify f).
Proof. intros H s. apply H. Qed.

Lemma keeps_bind {A B} (m : M A) (f : A -> M B) :
  keeps_busy m -> (forall a, keeps_busy (f a)) -> keeps_busy (m ≫= f).
Proof.
  intros Hm Hf s. specialize (Hm s).
  unfold keeps_busy, final, mbind, M_bind in *. run_of m s; simpl in *; [|assumption].
  specialize (Hf a p). destruct (f a p) as [[r s2] t2]. simpl in *.
  congruence.
Qed.

Lemma keeps_try_except body catches handler :
  keeps_busy body -> (forall e, keeps_busy (handler e)) ->
  keeps_busy (try_except body catches handler).
Proof.
  intros Hb Hh s. specialize (Hb s).
  unfold keeps_busy, final, try_except in *. run_of body s; simpl in *; [assumption|].
  destruct (catches e); [|assumption].
  specialize (Hh e p). destruct (handler e p) as [[r s2] t2]. simpl in *.
  congruence.
Qed.

Lemma keeps_for {A} (l : list A) (body : A -> M unit) :
  (forall x, keeps_busy (body x)) -> keeps_busy (for_ l body).
Proof.
  intros Hb. induction l as [|x l IH]; simpl.
  - apply keeps_ret.
  - apply keeps_bind; [apply Hb | intros _; exact IH].
Qed.

End RunFacts.

Ltac emits_auto :=
  repeat first
    [ progress intros
    | apply emits_ret | apply emits_raise | apply emits_lift
    | apply emits_modify | apply emits_for | apply emits_try_except
    | apply emits_try_finally | apply emits_bind
    | apply emits_emit; simpl; first [exact I | reflexivity | assumption]
    | match goal with
      | |- Logic.emits _ (if ?b then _ else _) => destruct b
      | |- Logic.emits _ (match ?x with _ => _ end) => destruct x
      end ].

Ltac keeps_auto :=
  repeat first
    [ progress intros
    | apply keeps_ret | apply keeps_raise | apply keeps_lift
    | apply keeps_emit | apply keeps_for | apply keeps_try_except
    | apply keeps_bind
    | apply keeps_modify; intros ?; reflexivity
    | match goal with
      | |- Logic.keeps_busy (if ?b then _ else _) => destruct b
      | |- Logic.keeps_busy (match ?x with _ => _ end) => destruct x
      end ].

Section PanelFacts.
Import ThreeD Logic.
Local Open Scope list_scope.
Variable w : world.

(** The display methods emit nothing and leave the indicator alone. *)

Lemma emits_display_shape P s : emits P (display_shape w s).
Proof. unfold display_shape, show. emits_auto. Qed.

Lemma emits_display_part P p : emits P (display_part w p).
Proof.
  unfold display_part, display_vector, display_message, show.
  emits_auto. apply emits_display_shape.
Qed.

Lemma emits_display_assembly P a : emits P (display_assembly w a).
Proof. apply emits_for. intros p. apply emits_display_part. Qed.

Lemma emits_display_assemblies P l : emits P (display_assemblies w l).
Proof. apply emits_for. intros a. apply emits_display_assembly. Qed.

Lemma emits_erase_all P : emits P erase_all.
Proof. apply emits_modify. Qed.

Lemma keeps_display_shape s : keeps_busy (display_shape w s).
Proof. unfold display_shape, show. keeps_auto. Qed.

Lemma keeps_display_part p : keeps_busy (display_part w p).
Proof.
  unfold display_part, display_vector, display_message, show.
  keeps_auto. apply keeps_display_shape.
Qed.

Lemma keeps_display_assembly a : keeps_busy (display_assembly w a).
Proof. apply keeps_for. intros p. apply keeps_display_part. Qed.

Lemma keeps_erase_all : keeps_busy erase_all.
Proof. apply keeps_modify. reflexivity. Qed.

(** What [display_module] emits: log entries, [FitAll], and the one
    importer of the anchorable part. *)
Lemma emits_display_module (P : event -> Prop) sel m :
  (forall l msg, P (Log l msg)) -> P FitAll -> (forall e, P (LogException e)) ->
  P (Import anchorable_part_from_py_script_call sel) ->
  emits P (display_module w sel m).
Proof.
  intros HL HF HE HI. unfold display_module, erase_and_log.
  emits_auto;
    first [ apply emits_display_shape | apply emits_display_part
          | apply emits_display_assembly | apply emits_display_assemblies
          | apply emits_emit; auto ].
Qed.

(** *** The busy discipline *)

Lemma guarded_quiet evs rest :
  Forall quiet evs ->
  Spec.busy_guarded true (evs ++ rest) = Spec.busy_guarded true rest.
Proof.
  induction 1 as [|e evs He _ IH]; [reflexivity|].
  destruct e; simpl in *; try contradiction; exact IH.
Qed.

Lemma guarded_calm evs rest :
  Forall calm evs ->
  Spec.busy_guarded false (evs ++ rest) = Spec.busy_guarded false rest.
Proof.
  induction 1 as [|e evs He _ IH]; [reflexivity|].
  destruct e; simpl in *; try contradiction; exact IH.
Qed.

Lemma disciplined_calm {A} (m : M A) :
  emits calm m -> keeps_busy m -> disciplined m.
Proof.
  intros He Hk s. split.
  - intros rest. apply guarded_calm, He.
  - intros H. now rewrite Hk.
Qed.

Lemma disciplined_bind {A B} (m : M A) (f : A -> M B) :
  disciplined m -> (forall a, disciplined (f a)) -> disciplined (m ≫= f).
Proof.
  intros Hm Hf s. destruct (Hm s) as [Hm1 Hm2].
  unfold disciplined, events, final, mbind, M_bind in *.
  destruct (m s) as [[[a|e] s1] t1]; simpl in *; [|now split].
  destruct (Hf a s1) as [Hf1 Hf2].
  destruct (f a s1) as [[r s2] t2]. simpl in *. split.
  - intros rest. now rewrite <- app_assoc, Hm1, Hf1.
  - auto.
Qed.

(** An import under its busy indicator: the indicator, the importer
    call at once, whatever quiet code follows, and the deletion. *)
Lemma disciplined_window msg call sel (body : M unit) :
  emits quiet body ->
  disciplined
    (new_busy_info msg ;;
     try_finally
       (try_except (emit (Import call sel) ;; body) is_Exception log_error)
       del_busy_info).
Proof.
  intros Hb s.
  pose (s0 := {| shown := shown s; extra_info := extra_info s;
                 busy_info := Some msg |}).
  specialize (Hb s0).
  unfold new_busy_info, del_busy_info, try_finally, try_except, log_error,
    emit, modify, events, final, mbind, M_bind in *.
  cbn [fst snd]. fold s0.
  destruct (body s0) as [[[|e] s1] t1]; cbn [fst snd app] in *.
  - split; [intros rest | reflexivity]. cbn.
    now rewrite <- app_assoc, (guarded_quiet _ _ Hb).
  - destruct (is_Exception e); cbn [fst snd app];
      (split; [intros rest | reflexivity]); cbn;
      rewrite <- ?app_assoc; now rewrite (guarded_quiet _ _ Hb).
Qed.

End PanelFacts.

Section HandlerFacts.
Import ThreeD Logic.
Local Open Scope list_scope.
Variable w : world.

Ltac leaves :=
  first [ apply emits_display_shape | apply emits_display_part
        | apply emits_display_assembly | apply emits_display_assemblies
        | apply emits_erase_all
        | apply emits_display_module; simpl; auto ].

(** Every importer call of a branch belongs to the action it serves. *)
Lemma run_action_imports ext a sel :
  emits (imports_only a) (Spec.run_action w ext a sel).
Proof.
  destruct a as [[]|]; simpl;
    unfold on_py, on_shapes_file, on_stl, on_json, on_stepzip,
      new_busy_info, del_busy_info, log_error;
    emits_auto; leaves.
Qed.

(** Under the busy indicator nothing creates or deletes one. *)
Lemma display_module_quiet sel m : emits quiet (display_module w sel m).
Proof. apply emits_display_module; simpl; auto. Qed.

Lemma run_action_disciplined ext a sel :
  disciplined (Spec.run_action w ext a sel).
Proof.
  destruct a as [[]|]; simpl;
    unfold on_py, on_shapes_file, on_stl, on_json, on_stepzip.
  - apply disciplined_bind; [apply disciplined_calm; [emits_auto | keeps_auto]|].
    intros content. destruct (is_valid_python w content).
    + apply disciplined_window. emits_auto; leaves.
    + apply disciplined_calm; [emits_auto | keeps_auto]; leaves.
  - apply disciplined_bind;
      [apply disciplined_calm; [leaves | apply keeps_erase_all]|].
    intros _. apply disciplined_window. emits_auto; leaves.
  - apply disciplined_bind;
      [apply disciplined_calm; [leaves | apply keeps_erase_all]|].
    intros _. apply disciplined_window. emits_auto; leaves.
  - apply disciplined_bind;
      [apply disciplined_calm; [leaves | apply keeps_erase_all]|].
    intros _. apply disciplined_window. emits_auto; leaves.
  - apply disciplined_bind;
      [apply disciplined_calm; [leaves | apply keeps_erase_all]|].
    intros _.
    apply disciplined_bind; [apply disciplined_calm; [emits_auto | keeps_auto]|].
    intros content. cbv zeta. destruct (PyStr.contains "metadata" content).
    + apply disciplined_window. emits_auto; leaves.
    + apply disciplined_calm; [emits_auto | keeps_auto].
  - apply disciplined_bind;
      [apply disciplined_calm; [leaves | apply keeps_erase_all]|].
    intros _. apply disciplined_window. emits_auto; leaves.
  - apply disciplined_calm; [emits_auto | keeps_auto]; leaves.
Qed.

(** The chain of comparisons on the extension is the lookup in the
    dispatch table. *)
Lemma handler_dispatch (model : Model.t) :
  let sel := Model.selected model in
  let ext := PyStr.lower (OsPath.splitext sel).2 in
  isdir w sel = false ->
  on_selected_change w model
  = (emit (Log DEBUG "Selection changed") ;;
     emit (Log DEBUG ("sel : " +:+ sel)) ;;
     (emit (Log INFO ("File extension : " +:+ ext)) ;;
      Spec.run_action w ext (Spec.action_of_ext ext) sel) ;;
     emit Layout ;;
     emit (Log DEBUG "code change detected in 3D panel")).
Proof.
  intros sel ext Hdir. unfold on_selected_change. fold sel. rewrite Hdir.
  cbn [negb]. fold ext. generalize ext. clear ext. intros ext.
  unfold Spec.action_of_ext, Spec.dispatch_table, PyStr.str_in.
  cbn [List.find existsb fst snd].
  repeat (destruct (String.eqb ext _); [reflexivity|]); reflexivity.
Qed.

Lemma imports_only_In a evs :
  Forall (imports_only a) evs ->
  forall i, In i (imports evs) -> a = Some (Spec.action_of_importer i).
Proof.
  induction 1 as [|e evs He _ IH]; intros i; simpl; [tauto|].
  destruct e; simpl in *; auto. intros [<-|Hi]; auto.
Qed.

End HandlerFacts.

Section HandlerRuns.
Import ThreeD Logic.
Local Open Scope list_scope.
Variable w : world.

(** A run of an import under its busy indicator: the events start with
    the indicator and the importer call and end with the deletion; the
    indicator is gone afterwards; only what [except Exception] does not
    catch comes out. *)
Lemma window_run msg call sel (body : M unit) s :
  exists r s' inner,
    (new_busy_info msg ;;
     try_finally
       (try_except (emit (Import call sel) ;; body) is_Exception log_error)
       del_busy_info) s
    = (r, s', BusyInfo msg :: Import call sel :: inner ++ [DelBusyInfo])
    /\ busy_info s' = None
    /\ (forall e, r = Raise e -> is_Exception e = false).
Proof.
  pose (s0 := {| shown := shown s; extra_info := extra_info s;
                 busy_info := Some msg |}).
  unfold new_busy_info, del_busy_info, try_finally, try_except, log_error,
    emit, modify, mbind, M_bind. cbn [fst snd]. fold s0.
  destruct (body s0) as [[[[]|e] s1] t1]; cbn [fst snd app].
  - exists (Ok tt),
      {| shown := shown s1; extra_info := extra_info s1; busy_info := None |},
      t1.
    split; [reflexivity | split; [reflexivity | discriminate]].
  - destruct (is_Exception e) eqn:He; cbn [fst snd app].
    + exists (Ok tt),
        {| shown := shown s1; extra_info := extra_info s1; busy_info := None |},
        (t1 ++ [Log ERROR (exn_msg e)]).
      rewrite <- !app_assoc.
      split; [reflexivity | split; [reflexivity | discriminate]].
    + exists (Raise e),
        {| shown := shown s1; extra_info := extra_info s1; busy_info := None |},
        t1.
      split; [reflexivity | split; [reflexivity | now intros ? [= <-]]].
Qed.

(** The handler on a file: the three opening log entries, the branch of
    the dispatch table, and the closing [Layout] and log entry when the
    branch returns. *)
Lemma handler_run (model : Model.t) s :
  let sel := Model.selected model in
  let ext := PyStr.lower (OsPath.splitext sel).2 in
  isdir w sel = false ->
  let o := Spec.run_action w ext (Spec.action_of_ext ext) sel s in
  on_selected_change w model s
  = (result o, final o,
     [ Log DEBUG "Selection changed"; Log DEBUG ("sel : " +:+ sel);
       Log INFO ("File extension : " +:+ ext) ]
     ++ events o
     ++ match result o with
        | Ok _ => [Layout; Log DEBUG "code change detected in 3D panel"]
        | Raise _ => []
        end).
Proof.
  intros sel ext Hdir o. rewrite (handler_dispatch w model Hdir).
  fold sel ext. unfold emit, mbind, M_bind. cbn [fst snd app]. fold o.
  destruct o as [[[[]|e] s1] t1]; cbn; now rewrite ?app_nil_r.
Qed.

Lemma imports_app a b : imports (a ++ b) = imports a ++ imports b.
Proof. unfold imports. apply omap_app. Qed.

Lemma handler_imports (model : Model.t) s :
  let sel := Model.selected model in
  let ext := PyStr.lower (OsPath.splitext sel).2 in
  isdir w sel = false ->
  imports (events (on_selected_change w model s))
  = imports (events (Spec.run_action w ext (Spec.action_of_ext ext) sel s)).
Proof.
  intros sel ext Hdir. rewrite (handler_run model s Hdir). fold sel ext.
  unfold events at 1. cbn [snd]. rewrite !imports_app.
  destruct (result _); cbn; now rewrite app_nil_r.
Qed.

End HandlerRuns.

(** ** The selection handler *)

Section Erase.
Import ThreeD Logic.

Lemma erase_then {A} (m : M A) s : (erase_all ;; m) s = m (erased s).
Proof.
  unfold erase_all, modify, mbind, M_bind. fold (erased s).
  now destruct (m (erased s)) as [[r s1] t1].
Qed.

End Erase.

Section ContentGates.
Import ThreeD Logic.
Local Open Scope list_scope.
Variable w : world.

Lemma lift_then {A B} (a : A) (k : A -> M B) s :
  (x ← lift (Ok a); k x) s = k a s.
Proof.
  unfold lift, mbind, M_bind. now destruct (k a s) as [[r s1] t1].
Qed.

(** The Python branch once the file is read: the import under its busy
    indicator when the content is valid Python, else a warning and an
    empty viewport. *)
Lemma on_py_run sel content s :
  read_text w sel = Ok content ->
  on_py w sel s
  = if is_valid_python w content then
      (new_busy_info "Loading Python defined geometry ..." ;;
       try_finally
         (try_except
            (emit (Import imp_load_source sel) ;;
             (m ← lift (load_source w sel); display_module w sel m))
            is_Exception log_error)
         del_busy_info) s
    else (Ok tt, erased s, [Log WARNING "Not a valid python file"]).
Proof.
  intros Hread. unfold on_py. rewrite Hread, lift_then.
  now destruct (is_valid_python w content).
Qed.

(** The parts-library branch once the file is read. *)
Lemma on_json_run sel content s :
  read_text w sel = Ok content ->
  on_json w sel s
  = if PyStr.contains "metadata" content then
      (new_busy_info "Loading parts library ..." ;;
       try_finally
         (try_except
            (emit (Import json_load sel) ;;
             (keys ← lift (json_data_keys w sel);
              for_ keys (fun k =>
                emit (Import (anchorable_part_from_library_call k) sel) ;;
                _ ← lift (anchorable_part_from_library w sel k);
                mret tt) ;;
              for_ keys (fun k =>
                emit (Import (anchorable_part_from_library_call k) sel) ;;
                library_part ← lift (anchorable_part_from_library w sel k);
                display_part w library_part ;;
                display_message k ;;
                emit FitAll)))
            is_Exception log_error)
         del_busy_info) (erased s)
    else (Ok tt, erased s, []).
Proof.
  intros Hread. unfold on_json. rewrite erase_then, Hread, lift_then.
  now destruct (PyStr.contains "metadata" content).
Qed.

End ContentGates.

(** C3. A selected .json file is taken for a parts library exactly when
    its text contains the substring "metadata": then, and only then, the
    library is loaded; when the substring is absent no importer is called
    and the viewport, emptied on entry, stays empty. *)
Theorem json_metadata_gate
    (w : ThreeD.world) (model : Model.t) (s : ThreeD.panel) (content : string) :
  let sel := Model.selected model in
  let out := ThreeD.on_selected_change w model s in
  ThreeD.isdir w sel = false ->
  PyStr.lower (OsPath.splitext sel).2 = ".json" ->
  ThreeD.read_text w sel = Ok content ->
  (In json_load (ThreeD.imports (ThreeD.events out))
   <-> exists pre post, content = pre +:+ "metadata" +:+ post)
  /\ ((~ exists pre post, content = pre +:+ "metadata" +:+ post) ->
      ThreeD.imports (ThreeD.events out) = []
      /\ ThreeD.shown (ThreeD.final out) = []
      /\ ThreeD.result out = Ok tt).
Proof.
  intros sel out Hdir Hext Hread.
  assert (Hrun := handler_run w model s Hdir).
  assert (Himp := handler_imports w model s Hdir).
  fold sel out in Hrun, Himp. rewrite Hext in Hrun, Himp.
  change (Spec.action_of_ext ".json") with (Some Spec.PartsLibraryImport)
    in Hrun, Himp.
  cbn [Spec.run_action] in Hrun, Himp. cbv zeta in Hrun.
  rewrite (on_json_run w sel content s Hread) in Hrun, Himp.
  rewrite <- contains_spec.
  destruct (PyStr.contains "metadata" content) eqn:Hc.
  - split; [|intros Hn; now elim Hn].
    split; [reflexivity | intros _]. rewrite Himp.
    match type of Himp with
    | context [(ThreeD.new_busy_info ?msg ;;
                ThreeD.try_finally
                  (ThreeD.try_except (ThreeD.emit (Import ?c ?p) ;; ?body) _ _)
                  _) ?s0] =>
        destruct (window_run msg c p body s0) as (r & s' & inner & -> & _)
    end.
    now left.
  - split; [split; [|discriminate]|].
    + rewrite Himp. intros [].
    + intros _. rewrite Himp, Hrun. repeat split.
Qed.

(** C4. For a selected .py file the module is executed only when
    [is_valid_python] accepts the content of the file, and then it is; on
    content that is not valid Python no importer is called, the warning
    is logged and the viewport is emptied. *)
Theorem python_validity_gate
    (w : ThreeD.world) (model : Model.t) (s : ThreeD.panel) (content : string) :
  let sel := Model.selected model in
  let out := ThreeD.on_selected_change w model s in
  ThreeD.isdir w sel = false ->
  PyStr.lower (OsPath.splitext sel).2 = ".py" ->
  ThreeD.read_text w sel = Ok content ->
  (In imp_load_source (ThreeD.imports (ThreeD.events out))
   <-> ThreeD.is_valid_python w content = true)
  /\ (ThreeD.is_valid_python w content = false ->
      ThreeD.imports (ThreeD.events out) = []
      /\ ThreeD.logged WARNING (ThreeD.events out) = ["Not a valid python file"]
      /\ ThreeD.shown (ThreeD.final out) = []
      /\ ThreeD.result out = Ok tt).
Proof.
  intros sel out Hdir Hext Hread.
  assert (Hrun := handler_run w model s Hdir).
  assert (Himp := handler_imports w model s Hdir).
  fold sel out in Hrun, Himp. rewrite Hext in Hrun, Himp.
  change (Spec.action_of_ext ".py") with (Some Spec.PythonScript)
    in Hrun, Himp.
  cbn [Spec.run_action] in Hrun, Himp. cbv zeta in Hrun.
  rewrite (on_py_run w sel content s Hread) in Hrun, Himp.
  destruct (ThreeD.is_valid_python w content) eqn:Hv.
  - split; [|discriminate].
    split; [reflexivity | intros _]. rewrite Himp.
    match type of Himp with
    | context [(ThreeD.new_busy_info ?msg ;;
                ThreeD.try_finally
                  (ThreeD.try_except (ThreeD.emit (Import ?c ?p) ;; ?body) _ _)
                  _) ?s0] =>
        destruct (window_run msg c p body s0) as (r & s' & inner & -> & _)
    end.
    now left.
  - split; [split; [|discriminate]|].
    + rewrite Himp. intros [].
    + intros _. rewrite Himp, Hrun. repeat split.
Qed.

Section Discipline.
Import ThreeD Logic.
Local Open Scope list_scope.
Variable w : world.

Ltac calmly := apply disciplined_calm; [emits_auto | keeps_auto].

Lemma handler_disciplined (model : Model.t) :
  disciplined (on_selected_change w model).
Proof.
  destruct (isdir w (Model.selected model)) eqn:Hdir.
  - unfold on_selected_change. rewrite Hdir. cbn [negb].
    apply disciplined_calm; [emits_auto | keeps_auto].
  - rewrite (handler_dispatch w model Hdir).
    apply disciplined_bind; [calmly | intros _].
    apply disciplined_bind; [calmly | intros _].
    apply disciplined_bind; [|intros _].
    + apply disciplined_bind; [calmly | intros _].
      apply run_action_disciplined.
    + apply disciplined_bind; [calmly | intros _; calmly].
Qed.

End Discipline.

Section WindowFacts.
Import ThreeD Logic Registry Window.
Local Open Scope list_scope.
Variable w : world.

(** An import under its busy indicator, in full: the indicator, the
    importer call, the whole run of the body, what [except Exception]
    logs, and the deletion of the indicator. *)
Lemma window_exact msg call sel (body : M unit) s :
  (new_busy_info msg ;;
   try_finally
     (try_except (emit (Import call sel) ;; body) is_Exception log_error)
     del_busy_info) s
  = (outcome (result (body (with_busy (Some msg) s))),
     with_busy None (final (body (with_busy (Some msg) s))),
     BusyInfo msg :: Import call sel
     :: events (body (with_busy (Some msg) s))
     ++ caught_log (result (body (with_busy (Some msg) s)))
     ++ [DelBusyInfo]).
Proof.
  unfold new_busy_info, del_busy_info, try_finally, try_except, log_error,
    emit, modify, mbind, M_bind. cbn [fst snd].
  fold (with_busy (Some msg) s).
  destruct (body (with_busy (Some msg) s)) as [[[[]|e] s1] t1];
    unfold outcome, caught_log, result, final, events; cbn [fst snd app].
  - reflexivity.
  - destruct (is_Exception e); cbn [fst snd app];
      rewrite <- ?app_assoc; reflexivity.
Qed.

(** Each branch of the dispatch table, once its content test has
    passed, is that import under that indicator. *)
Lemma branch_exact ext a sel s :
  gate w a sel ->
  Spec.run_action w ext (Some a) sel s
  = (outcome (result (import_body w a sel
                        (with_busy (Some (busy_message a)) (before a s)))),
     with_busy None
       (final (import_body w a sel
                 (with_busy (Some (busy_message a)) (before a s)))),
     BusyInfo (busy_message a) :: Import (first_call a) sel
     :: events (import_body w a sel
                  (with_busy (Some (busy_message a)) (before a s)))
     ++ caught_log
          (result (import_body w a sel
                     (with_busy (Some (busy_message a)) (before a s))))
     ++ [DelBusyInfo]).
Proof.
  intros Hg.
  destruct a; cbn [Spec.run_action gate busy_message first_call before] in *.
  - destruct Hg as (content & Hr & Hv).
    rewrite (on_py_run w sel content s Hr), Hv. apply window_exact.
  - unfold on_shapes_file. rewrite erase_then. apply window_exact.
  - unfold on_shapes_file. rewrite erase_then. apply window_exact.
  - unfold on_stl. rewrite erase_then. apply window_exact.
  - destruct Hg as (content & Hr & Hc).
    rewrite (on_json_run w sel content s Hr), Hc. apply window_exact.
  - unfold on_stepzip. rewrite erase_then. apply window_exact.
Qed.

(** The whole handler on a file whose extension is in the table and
    whose content test has passed. *)
Lemma handler_window (model : Model.t) s a :
  let sel := Model.selected model in
  let ext := PyStr.lower (OsPath.splitext sel).2 in
  isdir w sel = false ->
  Spec.action_of_ext ext = Some a ->
  gate w a sel ->
  on_selected_change w model s
  = (outcome (result (import_body w a sel
                        (with_busy (Some (busy_message a)) (before a s)))),
     with_busy None
       (final (import_body w a sel
                 (with_busy (Some (busy_message a)) (before a s)))),
     [ Log DEBUG "Selection changed"; Log DEBUG ("sel : " +:+ sel);
       Log INFO ("File extension : " +:+ ext) ]
     ++ BusyInfo (busy_message a) :: Import (first_call a) sel
     :: events (import_body w a sel
                  (with_busy (Some (busy_message a)) (before a s)))
     ++ caught_log
          (result (import_body w a sel
                     (with_busy (Some (busy_message a)) (before a s))))
     ++ DelBusyInfo
     :: epilogue
          (outcome
             (result (import_body w a sel
                        (with_busy (Some (busy_message a)) (before a s)))))).
Proof.
  intros sel ext Hdir Ha Hg.
  rewrite (handler_run w model s Hdir). fold sel ext. cbv zeta.
  rewrite Ha, (branch_exact ext a sel s Hg).
  set (b := import_body w a sel _).
  cbn [result final events fst snd app]. unfold epilogue.
  rewrite <- !app_assoc. reflexivity.
Qed.

End WindowFacts.

(** C1. On a selection that is not a directory the handler picks the
    import action from the lowercased extension alone, by the fixed
    table: .py the Python script, .step/.stp STEP, .iges/.igs IGES, .stl
    STL, .json the parts library, .stepzip STEPZIP. It runs the branch of
    that action between its opening and closing log entries; every
    importer it calls belongs to that action; the STEP, IGES, STL and
    STEPZIP importers are called whenever their extension is selected;
    for every action of the table, once the test of the content has
    passed (valid Python for .py, "metadata" for .json, none for the
    others), the handler creates the busy indicator of that action and
    calls its importer; any other extension gives no import, one error
    log entry and an empty viewport. *)
Theorem dispatch_by_extension
    (w : ThreeD.world) (model : Model.t) (s : ThreeD.panel) :
  let sel := Model.selected model in
  let ext := PyStr.lower (OsPath.splitext sel).2 in
  let out := ThreeD.on_selected_change w model s in
  let branch := Spec.run_action w ext (Spec.action_of_ext ext) sel s in
  ThreeD.isdir w sel = false ->
  out = (ThreeD.result branch, ThreeD.final branch,
         ([ Log DEBUG "Selection changed"; Log DEBUG ("sel : " +:+ sel);
            Log INFO ("File extension : " +:+ ext) ]
          ++ ThreeD.events branch
          ++ match ThreeD.result branch with
             | Ok _ => [Layout; Log DEBUG "code change detected in 3D panel"]
             | Raise _ => []
             end)%list)
  /\ (forall i, In i (ThreeD.imports (ThreeD.events out)) ->
                Spec.action_of_ext ext = Some (Spec.action_of_importer i))
  /\ (forall a, Spec.action_of_ext ext = Some a ->
                a <> Spec.PythonScript -> a <> Spec.PartsLibraryImport ->
                exists i rest,
                  ThreeD.imports (ThreeD.events out) = i :: rest
                  /\ Spec.action_of_importer i = a)
  /\ (Spec.action_of_ext ext = None ->
      ThreeD.imports (ThreeD.events out) = []
      /\ ThreeD.logged ERROR (ThreeD.events out)
         = ["File has an extension " +:+ ext
            +:+ " that is not handled by the 3D panel"]
      /\ ThreeD.shown (ThreeD.final out) = []
      /\ ThreeD.result out = Ok tt)
  /\ (forall a, Spec.action_of_ext ext = Some a ->
                Window.gate w a sel ->
                exists rest,
                  ThreeD.events out
                  = ([ Log DEBUG "Selection changed";
                       Log DEBUG ("sel : " +:+ sel);
                       Log INFO ("File extension : " +:+ ext) ]
                     ++ BusyInfo (Window.busy_message a)
                     :: Import (Window.first_call a) sel :: rest)%list
                  /\ ThreeD.imports (ThreeD.events out)
                     = Window.first_call a :: ThreeD.imports rest).
Proof.
  intros sel ext out branch Hdir.
  assert (Hrun := handler_run w model s Hdir).
  assert (Himp := handler_imports w model s Hdir).
  fold sel ext out branch in Hrun, Himp.
  split; [exact Hrun|]. split; [|split; [|split]].
  - intros i Hi. rewrite Himp in Hi.
    exact (imports_only_In _ _ (run_action_imports w ext _ sel s) i Hi).
  - intros a Ha Hpy Hjs. rewrite Himp. subst branch. rewrite Ha.
    destruct a; try congruence; cbn [Spec.run_action];
      unfold ThreeD.on_shapes_file, ThreeD.on_stl, ThreeD.on_stepzip;
      rewrite erase_then;
      match goal with
      | |- context [(ThreeD.new_busy_info ?msg ;;
                     ThreeD.try_finally
                       (ThreeD.try_except (ThreeD.emit (Import ?c ?p) ;; ?body) _ _)
                       _) ?s0] =>
          destruct (window_run msg c p body s0) as (r & s' & inner & -> & _)
      end;
      unfold ThreeD.events; cbn [snd ThreeD.imports omap];
      eexists _, _; split; reflexivity.
  - intros Hn. rewrite Hrun. subst branch. rewrite Hn.
    repeat split.
  - intros a Ha Hg. subst out.
    rewrite (handler_window w model s a Hdir Ha Hg).
    unfold ThreeD.events. cbn [snd]. eexists. split; reflexivity.
Qed.

(** C7. Every import runs inside the handler under a busy indicator.
    Started without a live indicator, the handler creates one only where
    an importer call follows at once, calls an importer only while the
    indicator is live, and ends without a live indicator, whether it
    returns or lets an exception out. And every import branch does run
    its import that way: on a file whose extension is in the table and
    whose content test has passed, the handler is exactly its three
    opening log entries, the busy indicator of the action, the importer
    call, the whole run of the import body, the error entry when
    [except Exception] caught something, the deletion of the indicator by
    the [finally] clause in each of the three outcomes (return, caught
    exception, exception let out), and only then the closing [Layout] and
    log entry. The import is synchronous: its events and its panel are
    part of the run of the handler, before the handler ends. There is no
    cancellation: for every answer of the outside calls the body runs to
    its own end, and nothing but its own return or exception ends it. *)
Theorem busy_indicator_discipline
    (w : ThreeD.world) (model : Model.t) (s : ThreeD.panel) :
  let sel := Model.selected model in
  let ext := PyStr.lower (OsPath.splitext sel).2 in
  let out := ThreeD.on_selected_change w model s in
  ThreeD.busy_info s = None ->
  Spec.busy_guarded false (ThreeD.events out) = true
  /\ ThreeD.busy_info (ThreeD.final out) = None
  /\ (ThreeD.isdir w sel = false ->
      forall a, Spec.action_of_ext ext = Some a ->
                Window.gate w a sel ->
      let b := Window.import_body w a sel
                 (Registry.with_busy (Some (Window.busy_message a))
                    (Window.before a s)) in
      out = (Window.outcome (ThreeD.result b),
             Registry.with_busy None (ThreeD.final b),
             ([ Log DEBUG "Selection changed"; Log DEBUG ("sel : " +:+ sel);
                Log INFO ("File extension : " +:+ ext) ]
              ++ BusyInfo (Window.busy_message a)
              :: Import (Window.first_call a) sel
              :: ThreeD.events b
              ++ Window.caught_log (ThreeD.result b)
              ++ DelBusyInfo
              :: Window.epilogue (Window.outcome (ThreeD.result b)))%list)).
Proof.
  intros sel ext out Hs. destruct (handler_disciplined w model s) as [Hg Hb].
  split; [|split; [exact (Hb Hs)|]].
  - specialize (Hg []). now rewrite app_nil_r in Hg.
  - intros Hdir a Ha Hgate b. exact (handler_window w model s a Hdir Ha Hgate).
Qed.

(** ** What is displayed of a loaded module *)

(** C5. Of a loaded module exactly one display action is performed, the
    one of the first attribute present in the order [__shapes__],
    [__assembly__], [__assemblies__], [__shape__]; [__shape__] is shown
    as an anchorable part when [__anchors__] is present and as a bare
    shape otherwise; with none of the four the viewport is cleared with a
    warning. The attributes after the winning one play no part. *)
Theorem display_precedence (w : ThreeD.world) (sel : string) (m : ThreeD.module_) :
  ThreeD.display_module w sel m
  = (ThreeD.erase_all ;; Spec.perform w sel (Spec.chosen m))
  /\ (forall shapes, ThreeD.__shapes__ m = Some shapes ->
        Spec.chosen m = Spec.DisplayShapes shapes)
  /\ (forall a, ThreeD.__shapes__ m = None -> ThreeD.__assembly__ m = Some a ->
        Spec.chosen m = Spec.DisplayAssembly a)
  /\ (forall l, ThreeD.__shapes__ m = None -> ThreeD.__assembly__ m = None ->
        ThreeD.__assemblies__ m = Some l ->
        Spec.chosen m = Spec.DisplayAssemblies l)
  /\ (forall sh, ThreeD.__shapes__ m = None -> ThreeD.__assembly__ m = None ->
        ThreeD.__assemblies__ m = None -> ThreeD.__shape__ m = Some sh ->
        Spec.chosen m = if ThreeD.__anchors__ m then Spec.DisplayAnchorablePart
                        else Spec.DisplayBareShape sh)
  /\ (ThreeD.__shapes__ m = None -> ThreeD.__assembly__ m = None ->
      ThreeD.__assemblies__ m = None -> ThreeD.__shape__ m = None ->
      Spec.chosen m = Spec.ClearWithWarning).
Proof.
  unfold ThreeD.display_module, Spec.chosen, Spec.candidates.
  destruct m as [sh shs an pr asm asms]; cbn [ThreeD.__shape__
    ThreeD.__shapes__ ThreeD.__anchors__ ThreeD.__assembly__
    ThreeD.__assemblies__].
  split.
  - destruct shs; [reflexivity|]. destruct asm; [reflexivity|].
    destruct asms; [reflexivity|]. destruct sh; [|reflexivity].
    destruct an; reflexivity.
  - repeat split; intros; subst; reflexivity.
Qed.

Lemma dispatch_by_extension_witness :
  let out := ThreeD.on_selected_change (Scenario.fair "" true Scenario.empty_module)
               (Scenario.select "/project/Bracket.STP") Scenario.fresh in
  let out_py := ThreeD.on_selected_change
                  (Scenario.fair "" true Scenario.empty_module)
                  (Scenario.select "/project/part.PY") Scenario.fresh in
  ThreeD.isdir (Scenario.fair "" true Scenario.empty_module)
    "/project/Bracket.STP" = false
  /\ (forall i, In i (ThreeD.imports (ThreeD.events out)) ->
                Some Spec.StepImport = Some (Spec.action_of_importer i))
  /\ (exists rest,
        ThreeD.events out_py
        = ([ Log DEBUG "Selection changed"; Log DEBUG "sel : /project/part.PY";
             Log INFO "File extension : .py";
             BusyInfo "Loading Python defined geometry ...";
             Import imp_load_source "/project/part.PY" ] ++ rest)%list
        /\ ThreeD.imports (ThreeD.events out_py)
           = imp_load_source :: ThreeD.imports rest).
Proof.
  split; [reflexivity|]. split.
  - exact (proj1 (proj2 (dispatch_by_extension
                           (Scenario.fair "" true Scenario.empty_module)
                           (Scenario.select "/project/Bracket.STP")
                           Scenario.fresh eq_refl))).
  - exact (proj2 (proj2 (proj2 (proj2
             (dispatch_by_extension
                (Scenario.fair "" true Scenario.empty_module)
                (Scenario.select "/project/part.PY")
                Scenario.fresh eq_refl))))
             Spec.PythonScript eq_refl
             (ex_intro _ "" (conj eq_refl eq_refl))).
Defined.

Lemma json_metadata_gate_witness :
  let out := ThreeD.on_selected_change
               (Scenario.fair "{ metadata : 1, data : 2 }" true Scenario.empty_module)
               (Scenario.select "/project/library.json") Scenario.fresh in
  In json_load (ThreeD.imports (ThreeD.events out))
  <-> exists pre post,
        "{ metadata : 1, data : 2 }" = pre +:+ "metadata" +:+ post.
Proof.
  exact (proj1 (json_metadata_gate
                  (Scenario.fair "{ metadata : 1, data : 2 }" true
                     Scenario.empty_module)
                  (Scenario.select "/project/library.json") Scenario.fresh
                  "{ metadata : 1, data : 2 }" eq_refl eq_refl eq_refl)).
Defined.

Lemma python_validity_gate_witness :
  let out := ThreeD.on_selected_change
               (Scenario.fair "def f(:" false Scenario.empty_module)
               (Scenario.select "/project/part.py") (Scenario.showing 7%nat) in
  ThreeD.imports (ThreeD.events out) = []
  /\ ThreeD.logged WARNING (ThreeD.events out) = ["Not a valid python file"]
  /\ ThreeD.shown (ThreeD.final out) = []
  /\ ThreeD.result out = Ok tt.
Proof.
  exact (proj2 (python_validity_gate
                  (Scenario.fair "def f(:" false Scenario.empty_module)
                  (Scenario.select "/project/part.py") (Scenario.showing 7%nat)
                  "def f(:" eq_refl eq_refl eq_refl) eq_refl).
Defined.

Lemma busy_indicator_discipline_witness :
  let out := ThreeD.on_selected_change
               (Scenario.failing_script "import sys; sys.exit()"
                  (Exn SystemExit ""))
               (Scenario.select "/project/part.py") Scenario.fresh in
  out = (Raise (Exn SystemExit ""), Scenario.fresh,
         [ Log DEBUG "Selection changed"; Log DEBUG "sel : /project/part.py";
           Log INFO "File extension : .py";
           BusyInfo "Loading Python defined geometry ...";
           Import imp_load_source "/project/part.py";
           DelBusyInfo ])
  /\ Spec.busy_guarded false (ThreeD.events out) = true
  /\ ThreeD.busy_info (ThreeD.final out) = None.
Proof.
  pose (H := busy_indicator_discipline
               (Scenario.failing_script "import sys; sys.exit()"
                  (Exn SystemExit ""))
               (Scenario.select "/project/part.py") Scenario.fresh eq_refl).
  split; [|split].
  - exact (proj2 (proj2 H) eq_refl Spec.PythonScript eq_refl
             (ex_intro _ "import sys; sys.exit()" (conj eq_refl eq_refl))).
  - exact (proj1 H).
  - exact (proj1 (proj2 H)).
Defined.

Lemma display_precedence_witness :
  Spec.chosen Scenario.full_module = Spec.DisplayShapes [1%nat; 2%nat]
  /\ Spec.chosen Scenario.empty_module = Spec.ClearWithWarning.
Proof.
  split.
  - exact (proj1 (proj2 (display_precedence
                           (Scenario.fair "" true Scenario.full_module)
                           "part.py" Scenario.full_module))
             [1%nat; 2%nat] eq_refl).
  - exact (proj2 (proj2 (proj2 (proj2 (proj2
             (display_precedence (Scenario.fair "" true Scenario.empty_module)
                "part.py" Scenario.empty_module)))))
             eq_refl eq_refl eq_refl eq_refl).
Defined.

(** ** Failures during an import *)

Section Failures.
Import ThreeD Logic.
Local Open Scope list_scope.
Variable w : world.

(** What the handler lets out on a file is either outside [Exception]
    or was raised by reading the file, before any [try]. *)
Lemma handler_lets_out (model : Model.t) s e :
  let sel := Model.selected model in
  isdir w sel = false ->
  result (on_selected_change w model s) = Raise e ->
  is_Exception e = false \/ read_text w sel = Raise e.
Proof.
  intros sel Hdir. rewrite (handler_run w model s Hdir). fold sel.
  unfold result at 1. cbn [fst].
  destruct (Spec.action_of_ext _) as [[]|]; cbn [Spec.run_action];
    unfold on_shapes_file, on_stl, on_stepzip; rewrite ?erase_then;
    try match goal with
      | |- context [(new_busy_info ?msg ;;
                     try_finally
                       (try_except (emit (Import ?c ?p) ;; ?body) _ _)
                       _) ?s0] =>
          destruct (window_run msg c p body s0) as (r & s' & inner & -> & _ & Hr);
          intros H; left; exact (Hr e H)
      end.
  - destruct (read_text w sel) as [content|e'] eqn:Hread.
    + rewrite (on_py_run w sel content s Hread).
      destruct (is_valid_python w content); [|discriminate].
      match goal with
      | |- context [(new_busy_info ?msg ;;
                     try_finally
                       (try_except (emit (Import ?c ?p) ;; ?body) _ _)
                       _) ?s0] =>
          destruct (window_run msg c p body s0) as (r & s' & inner & -> & _ & Hr)
      end.
      intros H; left; exact (Hr e H).
    + unfold on_py. rewrite Hread. intros [= <-]. now right.
  - destruct (read_text w sel) as [content|e'] eqn:Hread.
    + rewrite (on_json_run w sel content s Hread).
      destruct (PyStr.contains "metadata" content); [|discriminate].
      match goal with
      | |- context [(new_busy_info ?msg ;;
                     try_finally
                       (try_except (emit (Import ?c ?p) ;; ?body) _ _)
                       _) ?s0] =>
          destruct (window_run msg c p body s0) as (r & s' & inner & -> & _ & Hr)
      end.
      intros H; left; exact (Hr e H).
    + unfold on_json. rewrite erase_then, Hread. intros [= <-]. now right.
  - discriminate.
Qed.

End Failures.

(** C2, at a script that raises while it is loaded. The file part.py is
    valid Python whose execution raises [ValueError]; the viewport shows
    shape 7 from an earlier selection. The handler catches the exception,
    logs it and returns, the busy indicator is gone - and the viewport
    still shows shape 7: [erase_all] sits after [imp.load_source] inside
    the [try] and is never reached. *)
Theorem failed_script_keeps_scene :
  let out := ThreeD.on_selected_change
               (Scenario.failing_script "raise ValueError(42)" (Exn ValueError "42"))
               (Scenario.select "/project/part.py") (Scenario.showing 7%nat) in
  ThreeD.result out = Ok tt
  /\ ThreeD.logged ERROR (ThreeD.events out) = ["42"]
  /\ ThreeD.busy_info (ThreeD.final out) = None
  /\ ThreeD.shown (ThreeD.final out) = [ThreeD.ShapeItem 7%nat]
  /\ ThreeD.shown (ThreeD.final out) <> [].
Proof. cbv zeta. repeat split. discriminate. Qed.

(** The other five branches empty the viewport before they import: with
    the same earlier scene, a STEPZIP import that raises leaves nothing
    displayed. *)
Example failed_stepzip_clears_scene :
  let w := {| ThreeD.isdir := fun _ => false;
              ThreeD.read_text := fun _ => Ok "";
              ThreeD.is_valid_python := fun _ => true;
              ThreeD.load_source := fun _ => Ok Scenario.empty_module;
              ThreeD.display_error := fun _ => None;
              ThreeD.anchorable_part_from_py_script := fun _ => Ok Scenario.a_part;
              ThreeD.StepImporter_shapes := fun _ => Ok [];
              ThreeD.IgesImporter_shapes := fun _ => Ok [];
              ThreeD.StlImporter_shape := fun _ => Ok 4%nat;
              ThreeD.json_data_keys := fun _ => Ok [];
              ThreeD.anchorable_part_from_library := fun _ _ => Ok Scenario.a_part;
              ThreeD.anchorable_part_from_stepzip :=
                fun _ => Raise (Exn OSError "not a zip file") |} in
  let out := ThreeD.on_selected_change w (Scenario.select "/project/part.stepzip")
               (Scenario.showing 7%nat) in
  ThreeD.result out = Ok tt
  /\ ThreeD.logged ERROR (ThreeD.events out) = ["not a zip file"]
  /\ ThreeD.shown (ThreeD.final out) = [].
Proof. cbv zeta. repeat split. Qed.

(** A file that cannot be read is outside every [try]: the handler lets
    the exception out. *)
Example unreadable_script_raises :
  ThreeD.result
    (ThreeD.on_selected_change
       (Scenario.unreadable (Exn OSError "Permission denied"))
       (Scenario.select "/project/part.py") Scenario.fresh)
  = Raise (Exn OSError "Permission denied").
Proof. reflexivity. Qed.

(** ** The info readout *)

Section Readout.
Import ThreeD.
Local Open Scope list_scope.
Variable F : Type.
Variables fsub fadd fdiv : F -> F -> F.
Variable two : F.
Variable fmt_f : F -> string.
Variable bbox_Get : shape -> F * F * F * F * F * F.
Variable str_shapes : list shape -> string.

Abbreviation numbers := (bbox_numbers F fsub fadd fdiv two bbox_Get).
Abbreviation lines := (bbox_lines F fsub fadd fdiv two fmt_f bbox_Get).
Abbreviation readout :=
  (display_extra_info F fsub fadd fdiv two fmt_f bbox_Get str_shapes).

(** The numbers of the readout are the spans of the bounding box and
    its lower corner moved by half of each span. *)
Lemma bbox_numbers_formula shape_ xmin ymin zmin xmax ymax zmax :
  bbox_Get shape_ = (xmin, ymin, zmin, xmax, ymax, zmax) ->
  numbers shape_
  = ((fsub xmax xmin, fsub ymax ymin, fsub zmax zmin),
     (fadd xmin (fdiv (fsub xmax xmin) two),
      fadd ymin (fdiv (fsub ymax ymin) two),
      fadd zmin (fdiv (fsub zmax zmin) two))).
Proof. intros H. unfold bbox_numbers. now rewrite H. Qed.

(** A selected shape with an entry in [extra_info] gets its message
    box: the bounding-box lines, then one line per property. *)
Lemma readout_of_registered shape_ (ps : props) s :
  extra_info s !! shape_ = Some ps ->
  readout [shape_] s
  = (Ok tt, s,
     [MessageBox
        (join_lines ([str_shapes [shape_]; ""] ++ lines shape_ ++ [""]
                     ++ List.map prop_line ps))
        "Part Info"]).
Proof.
  intros H. unfold display_extra_info, extra_info_getitem, emit.
  change (for_ [shape_] ?f) with (f shape_ ;; mret tt).
  unfold mbind, M_bind, mret, M_ret. cbv beta. rewrite H.
  cbn [app]. now rewrite <- !app_assoc.
Qed.

(** A selected shape without an entry gets none: the subscript raises
    before [wx.MessageBox] is reached. *)
Lemma readout_of_unregistered shape_ rest s :
  extra_info s !! shape_ = None ->
  readout (shape_ :: rest) s = (Raise (Exn KeyError (pretty shape_)), s, []).
Proof.
  intros H. unfold display_extra_info, extra_info_getitem.
  change (for_ (shape_ :: rest) ?f) with (f shape_ ;; for_ rest f).
  unfold mbind, M_bind. cbv beta. now rewrite H.
Qed.

End Readout.

(** C6, at a shape imported from a STEP file. After bracket.step is
    selected the viewport shows the imported shapes 1 and 2, and
    [extra_info] has no entry for them, since only [display_part] writes
    one. Selecting shape 1 in the viewer then makes [display_extra_info]
    raise [KeyError] after the bounding box is computed and before any
    message box is shown: no readout is reported for that shape. *)
Theorem step_shape_has_no_readout :
  let out := ThreeD.on_selected_change
               (Scenario.fair "" true Scenario.empty_module)
               (Scenario.select "/project/bracket.step") Scenario.fresh in
  ThreeD.result out = Ok tt
  /\ ThreeD.shown (ThreeD.final out)
     = [ThreeD.ShapeItem 1%nat; ThreeD.ShapeItem 2%nat]
  /\ forall (F : Type) (fsub fadd fdiv : F -> F -> F) (two : F)
            (fmt_f : F -> string)
            (bbox_Get : ThreeD.shape -> F * F * F * F * F * F)
            (str_shapes : list ThreeD.shape -> string),
       ThreeD.display_extra_info F fsub fadd fdiv two fmt_f bbox_Get str_shapes
         [1%nat] (ThreeD.final out)
       = (Raise (Exn KeyError "1"), ThreeD.final out, []).
Proof.
  cbv zeta. split; [reflexivity|]. split; [reflexivity|]. intros.
  now apply readout_of_unregistered.
Qed.

(** A part displayed through [display_part] is registered, and its
    readout carries the bounding-box figures: here with integers for the
    floats, a box from (0, 0, 0) to (10, 20, 30). *)
Example stepzip_part_readout :
  let out := ThreeD.on_selected_change
               (Scenario.fair "" true Scenario.empty_module)
               (Scenario.select "/project/bracket.stepzip") Scenario.fresh in
  ThreeD.events
    (ThreeD.display_extra_info Z Z.sub Z.add Z.div 2 pretty
       (fun _ => (0, 0, 0, 10, 20, 30)) (fun _ => "[shape]")
       [5%nat] (ThreeD.final out))
  = [MessageBox
       (ThreeD.join_lines
          [ "[shape]"; "";
            "Bounding box :"; "  dx=10, dy=20, dz=30.";
            "Bounding box center :"; "  x=5, y=10, z=15";
            ""; " mass : 12.5 [kg]" ])
       "Part Info"].
Proof. reflexivity. Qed.

(** * Further properties of the code *)

(** ** More on [get_file_extension] *)

Section ExtensionFacts.
Import PyStr.

Lemma lower_char_idem (c : ascii) : lower_char (lower_char c) = lower_char c.
Proof. destruct c as [[] [] [] [] [] [] [] []]; reflexivity. Qed.

Lemma lower_idem (s : string) : lower (lower s) = lower s.
Proof.
  induction s as [|c s IH]; simpl; [reflexivity|].
  now rewrite lower_char_idem, IH.
Qed.

Lemma lstrip_head (s : string) :
  lstrip s = EmptyString
  \/ exists c r, lstrip s = String c r /\ is_space c = false.
Proof.
  induction s as [|c s IH]; simpl; [now left|].
  destruct (is_space c) eqn:Hc; [exact IH | right; now exists c, s].
Qed.

Lemma rstrip_head (c : ascii) (r : string) :
  is_space c = false -> exists r', rstrip (String c r) = String c r'.
Proof.
  intros Hc. simpl. destruct (rstrip r); rewrite ?Hc; eauto.
Qed.

Lemma rstrip_idem (s : string) : rstrip (rstrip s) = rstrip s.
Proof.
  induction s as [|c s IH]; [reflexivity|].
  cbn [rstrip]. destruct (rstrip s) as [|d r'] eqn:Hr.
  - destruct (is_space c) eqn:Hc; [reflexivity|].
    cbn [rstrip]. now rewrite Hc.
  - cbn [rstrip] in *. now rewrite IH.
Qed.

Lemma strip_idem (s : string) : strip (strip s) = strip s.
Proof.
  unfold strip. destruct (lstrip_head s) as [-> | (c & r & -> & Hc)];
    [reflexivity|].
  destruct (rstrip_head c r Hc) as (r' & Hr).
  rewrite Hr at 1. cbn [lstrip]. rewrite Hc, <- Hr. apply rstrip_idem.
Qed.

(** The extension of a file name that splits at its last period. *)
Lemma extension_of_file (isdir : string -> bool) (stem tail : string) :
  isdir (stem +:+ String "." tail) = false ->
  lacks "." tail = true ->
  Utils.get_file_extension isdir (stem +:+ String "." tail)
  = lower (strip (String "." tail)).
Proof.
  intros Hd Ht. unfold Utils.get_file_extension. rewrite Hd. cbn [negb].
  rewrite (rfind_last _ stem tail Ht).
  destruct (Z.gtb_spec (Z.of_nat (String.length stem)) (-1)); [|lia].
  now rewrite slice_from_app.
Qed.

Lemma extension_of_plain (isdir : string -> bool) (filename : string) :
  isdir filename = false -> lacks "." filename = true ->
  Utils.get_file_extension isdir filename = "".
Proof.
  intros Hd Hn. unfold Utils.get_file_extension.
  now rewrite Hd, (rfind_lacks _ _ Hn).
Qed.

End ExtensionFacts.

(** X1. What [get_file_extension] returns is in normal form: lowering it
    or stripping it again changes nothing. *)
Theorem get_file_extension_normal (isdir : string -> bool) (filename : string) :
  PyStr.lower (Utils.get_file_extension isdir filename)
  = Utils.get_file_extension isdir filename
  /\ PyStr.strip (Utils.get_file_extension isdir filename)
     = Utils.get_file_extension isdir filename.
Proof.
  unfold Utils.get_file_extension.
  destruct (isdir filename); cbn [negb]; [now split|].
  destruct (_ >? _); [|now split]. split.
  - apply lower_idem.
  - now rewrite <- lower_strip, strip_idem.
Qed.

(** X2. On a file the result is empty or begins with a period, so the
    answer ["directory"] is given for directories and for nothing else. *)
Theorem get_file_extension_directory (isdir : string -> bool) (filename : string) :
  (isdir filename = false ->
   Utils.get_file_extension isdir filename = ""
   \/ exists r, Utils.get_file_extension isdir filename = String "." r)
  /\ (Utils.get_file_extension isdir filename = "directory"
      <-> isdir filename = true).
Proof.
  assert (Hfile : isdir filename = false ->
            Utils.get_file_extension isdir filename = ""
            \/ exists r, Utils.get_file_extension isdir filename = String "." r).
  { intros Hd.
    destruct (last_split "." filename) as [Hn | (stem & tail & -> & Ht)].
    - left. now apply extension_of_plain.
    - right. rewrite (extension_of_file isdir stem tail Hd Ht).
      unfold PyStr.strip. cbn [PyStr.lstrip].
      change (PyStr.is_space ".") with false. cbv iota.
      destruct (rstrip_head "." tail eq_refl) as (r' & ->).
      now exists (PyStr.lower r'). }
  split; [exact Hfile|]. split.
  - destruct (isdir filename) eqn:Hd; [reflexivity|].
    destruct (Hfile eq_refl) as [-> | (r & ->)]; discriminate.
  - intros Hd. unfold Utils.get_file_extension. now rewrite Hd.
Qed.

Lemma get_file_extension_directory_witness :
  Utils.get_file_extension (fun _ => false) "archive.tar.GZ" = ""
  \/ exists r, Utils.get_file_extension (fun _ => false) "archive.tar.GZ"
               = String "." r.
Proof.
  exact (proj1 (get_file_extension_directory (fun _ => false) "archive.tar.GZ")
           eq_refl).
Defined.

(** ** The handlers of the frame *)

(** X4. The Open handler, when the dialog is confirmed with a path, makes
    that path both the root folder and the selection, leaves [code],
    appends the path to [sys.path] and notifies first
    ["root_folder_changed"], then ["selected_changed"]; when the dialog
    is cancelled nothing changes and nothing is notified. *)
Theorem on_open_selects_root (st : Model.process) (path : string) :
  (let out := Frame.on_open (Some path) st in
   Model.root_folder (Model.self out.1) = path
   /\ Model.selected (Model.self out.1) = path
   /\ Model.code (Model.self out.1) = Model.code (Model.self st)
   /\ Model.sys_path out.1 = (Model.sys_path st ++ [path])%list
   /\ Model.notifications out.2 = ["root_folder_changed"; "selected_changed"])
  /\ Frame.on_open None st = (st, []).
Proof. repeat split. Qed.

(** X5. Closing the frame ends the process exactly when confirmation is
    off or the dialog is answered OK, and the dialog is shown exactly
    when confirmation is on. Started without an ini file the frame has
    confirmation on: it always asks, and ends only on OK. *)
Theorem on_close_confirms
    (float_of_str : string -> option Q) (int_of_str : string -> option Z)
    (parsed : gmap string Ui.entry) (confirm answer_ok : bool) :
  Frame.exits (Frame.on_close confirm answer_ok) = negb confirm || answer_ok
  /\ Frame.asks (Frame.on_close confirm answer_ok) = confirm
  /\ forall s,
       (Ui.frame_config float_of_str int_of_str
          (Ui.get_config false parsed).1).1 = Ok s ->
       Frame.asks (Frame.on_close (Ui.confirm_close s) answer_ok) = true
       /\ Frame.exits (Frame.on_close (Ui.confirm_close s) answer_ok) = answer_ok.
Proof.
  split; [|split].
  - now destruct confirm, answer_ok.
  - now destruct confirm, answer_ok.
  - intros s [= <-]. now destruct answer_ok.
Qed.

Lemma on_close_confirms_witness :
  Frame.asks (Frame.on_close (Ui.confirm_close Ui.defaults) false) = true
  /\ Frame.exits (Frame.on_close (Ui.confirm_close Ui.defaults) false) = false.
Proof.
  exact (proj2 (proj2 (on_close_confirms (fun _ => None) (fun _ => None) ∅
                         true false)) Ui.defaults eq_refl).
Defined.

(** ** More on the configuration *)

Section ConfigValues.
Variable float_of_str : string -> option Q.
Variable int_of_str : string -> option Z.

Lemma mapM_float_str (l : list string) (qs : list Q) :
  mapM (Ui.float_str float_of_str) l = Ok qs ->
  Forall2 (fun s q => float_of_str s = Some q) l qs.
Proof.
  revert qs. induction l as [|x l IH]; intros qs; cbn [mapM].
  - intros [= <-]. constructor.
  - unfold mbind, res_bind, Ui.float_str at 1.
    destruct (float_of_str x) as [q|] eqn:Hx; [|discriminate].
    destruct (mapM _ l) as [qs'|] eqn:Hl; [|discriminate].
    intros [= <-]. constructor; [exact Hx | now apply IH].
Qed.

End ConfigValues.

(** X6. A colour that the ini file gives as one string, without a comma,
    is read one character at a time: the tuple has one component per
    character, each the float of that character alone. A colour given as
    a list has one component per element. *)
Theorem float_tuple_components
    (float_of_str : string -> option Q) (v : Ui.value) (qs : list Q) :
  Ui.float_tuple float_of_str v = Ok qs ->
  match v with
  | Ui.Scalar s =>
      Forall2 (fun c q => float_of_str (String c EmptyString) = Some q)
        (list_ascii_of_string s) qs
      /\ length qs = String.length s
  | Ui.Values l =>
      Forall2 (fun x q => float_of_str x = Some q) l qs
      /\ length qs = length l
  end.
Proof.
  destruct v as [s|l]; cbn [Ui.float_tuple]; intros H;
    apply mapM_float_str in H.
  - apply Forall2_fmap_l in H. split; [exact H|].
    apply Forall2_length in H. rewrite <- H.
    clear. induction s as [|c s IH]; simpl; [reflexivity | now rewrite IH].
  - split; [exact H | symmetry; exact (Forall2_length _ _ _ H)].
Qed.

Lemma float_tuple_components_witness :
  Forall2 (fun c q => (fun s => if String.eqb s "5" then Some (5 # 1)%Q
                                else if String.eqb s "0" then Some (0 # 1)%Q
                                else None) (String c EmptyString) = Some q)
    (list_ascii_of_string "50") [5 # 1; 0 # 1]%Q
  /\ length [5 # 1; 0 # 1]%Q = String.length "50".
Proof.
  exact (float_tuple_components
           (fun s => if String.eqb s "5" then Some (5 # 1)%Q
                     else if String.eqb s "0" then Some (0 # 1)%Q
                     else None)
           (Ui.Scalar "50") [5 # 1; 0 # 1]%Q eq_refl).
Defined.

(** X7. A number that cannot be parsed is not replaced by a default: with
    the frame section and the background colour in order and an
    [objects_transparency] that [float] rejects, the configuration block
    raises [ValueError] and shows no warning box. *)
Theorem unparsable_number_raises
    (float_of_str : string -> option Q) (int_of_str : string -> option Z)
    (c : Ui.config) (v1 v2 v3 : Ui.value) (bg : list Q) (t : string) :
  Ui.lookup2 c "frame" "maximize" = Ok v1 ->
  Ui.lookup2 c "frame" "confirm_close" = Ok v2 ->
  Ui.lookup2 c "viewer" "viewer_background_colour" = Ok v3 ->
  Ui.float_tuple float_of_str v3 = Ok bg ->
  Ui.lookup2 c "viewer" "objects_transparency" = Ok (Ui.Scalar t) ->
  float_of_str t = None ->
  Ui.frame_config float_of_str int_of_str c = (Raise (Exn ValueError t), []).
Proof.
  intros H1 H2 H3 H3' H4 Ht. unfold Ui.frame_config, Ui.read_config.
  rewrite H1. cbn [mbind res_bind]. rewrite H2. cbn [mbind res_bind].
  rewrite H3. cbn [mbind res_bind]. rewrite H3'. cbn [mbind res_bind].
  rewrite H4. cbn [mbind res_bind]. unfold Ui.float_, Ui.float_str.
  now rewrite Ht.
Qed.

Lemma unparsable_number_raises_witness :
  Ui.frame_config (fun _ => None) (fun _ => None)
    (Some {[ "frame" := Ui.Sub {[ "maximize" := Ui.Scalar "True";
                                  "confirm_close" := Ui.Scalar "True" ]};
             "viewer" := Ui.Sub {[ "viewer_background_colour" := Ui.Values [];
                                   "objects_transparency" := Ui.Scalar "half" ]} ]})
  = (Raise (Exn ValueError "half"), []).
Proof.
  apply (unparsable_number_raises (fun _ => None) (fun _ => None) _
           (Ui.Scalar "True") (Ui.Scalar "True") (Ui.Values []) [] "half");
    reflexivity.
Defined.

(** X8. A configuration with all six keys in order is honoured and no
    warning box is shown; [maximize] and [confirm_close] count as true
    only when their text is exactly [True]. *)
Theorem complete_config_honoured
    (float_of_str : string -> option Q) (int_of_str : string -> option Z)
    (c : Ui.config) (v1 v2 v3 v6 : Ui.value) (t h : string)
    (bg fg : list Q) (tr : Q) (th : Z) :
  Ui.lookup2 c "frame" "maximize" = Ok v1 ->
  Ui.lookup2 c "frame" "confirm_close" = Ok v2 ->
  Ui.lookup2 c "viewer" "viewer_background_colour" = Ok v3 ->
  Ui.float_tuple float_of_str v3 = Ok bg ->
  Ui.lookup2 c "viewer" "objects_transparency" = Ok (Ui.Scalar t) ->
  float_of_str t = Some tr ->
  Ui.lookup2 c "viewer" "text_height" = Ok (Ui.Scalar h) ->
  int_of_str h = Some th ->
  Ui.lookup2 c "viewer" "text_colour" = Ok v6 ->
  Ui.float_tuple float_of_str v6 = Ok fg ->
  Ui.frame_config float_of_str int_of_str c
  = (Ok {| Ui.frame_maximize := Ui.is_True v1;
           Ui.confirm_close := Ui.is_True v2;
           Ui.viewer_background_colour := bg;
           Ui.objects_transparency := tr;
           Ui.text_height := th;
           Ui.text_colour := fg |}, [])
  /\ (Ui.is_True v1 = true <-> v1 = Ui.Scalar "True").
Proof.
  intros H1 H2 H3 H3' H4 H4' H5 H5' H6 H6'. split.
  - unfold Ui.frame_config, Ui.read_config.
    rewrite H1. cbn [mbind res_bind]. rewrite H2. cbn [mbind res_bind].
    rewrite H3. cbn [mbind res_bind]. rewrite H3'. cbn [mbind res_bind].
    rewrite H4. cbn [mbind res_bind]. unfold Ui.float_, Ui.float_str.
    rewrite H4'. cbn [mbind res_bind].
    rewrite H5. cbn [mbind res_bind]. unfold Ui.int_. rewrite H5'.
    cbn [mbind res_bind].
    rewrite H6. cbn [mbind res_bind]. rewrite H6'. cbn [mbind res_bind mret res_ret].
    now destruct (Ui.is_True v1), (Ui.is_True v2).
  - destruct v1 as [s|l]; cbn [Ui.is_True].
    + rewrite String.eqb_eq. split; [now intros -> | now intros [= ->]].
    + split; discriminate.
Qed.

Lemma complete_config_honoured_witness :
  (Ui.frame_config (fun _ => Some (1 # 2)%Q) (fun _ => Some 12)
     (Some {[ "frame" := Ui.Sub {[ "maximize" := Ui.Scalar "true";
                                   "confirm_close" := Ui.Scalar "True" ]};
              "viewer" := Ui.Sub {[ "viewer_background_colour" := Ui.Values ["1"];
                                    "objects_transparency" := Ui.Scalar "0.5";
                                    "text_height" := Ui.Scalar "12";
                                    "text_colour" := Ui.Values [] ]} ]})).1
  = Ok {| Ui.frame_maximize := false;
          Ui.confirm_close := true;
          Ui.viewer_background_colour := [1 # 2]%Q;
          Ui.objects_transparency := (1 # 2)%Q;
          Ui.text_height := 12;
          Ui.text_colour := [] |}.
Proof.
  exact (f_equal fst
           (proj1 (complete_config_honoured
                     (fun _ => Some (1 # 2)%Q) (fun _ => Some 12)
                     (Some {[ "frame" := Ui.Sub {[ "maximize" := Ui.Scalar "true";
                                                   "confirm_close" := Ui.Scalar "True" ]};
                              "viewer" := Ui.Sub {[ "viewer_background_colour" := Ui.Values ["1"];
                                                    "objects_transparency" := Ui.Scalar "0.5";
                                                    "text_height" := Ui.Scalar "12";
                                                    "text_colour" := Ui.Values [] ]} ]})
                     (Ui.Scalar "true") (Ui.Scalar "True") (Ui.Values ["1"])
                     (Ui.Values []) "0.5" "12" [1 # 2]%Q [] (1 # 2)%Q 12
                     eq_refl eq_refl eq_refl eq_refl eq_refl eq_refl eq_refl
                     eq_refl eq_refl eq_refl))).
Defined.

(** ** What a run keeps of the panel *)

Section Preserve.
Import ThreeD Registry.
Variable R : panel -> panel -> Prop.
Context `{!PreOrder R}.

Lemma pres_ret {A} (a : A) : preserves R (mret a).
Proof. intros s. reflexivity. Qed.

Lemma pres_emit e : preserves R (emit e).
Proof. intros s. reflexivity. Qed.

Lemma pres_raise {A} e : preserves R (@raise A e).
Proof. intros s. reflexivity. Qed.

Lemma pres_lift {A} (r : res A) : preserves R (lift r).
Proof. intros s. reflexivity. Qed.

Lemma pres_modify f : (forall p, R p (f p)) -> preserves R (modify f).
Proof. intros H s. apply H. Qed.

Lemma pres_bind {A B} (m : M A) (f : A -> M B) :
  preserves R m -> (forall a, preserves R (f a)) -> preserves R (m ≫= f).
Proof.
  intros Hm Hf s. specialize (Hm s).
  unfold preserves, final, mbind, M_bind in *.
  destruct (m s) as [[[a|e] s1] t1]; simpl in *; [|assumption].
  specialize (Hf a s1). destruct (f a s1) as [[r s2] t2]. simpl in *.
  now transitivity s1.
Qed.

Lemma pres_try_except body catches handler :
  preserves R body -> (forall e, preserves R (handler e)) ->
  preserves R (try_except body catches handler).
Proof.
  intros Hb Hh s. specialize (Hb s).
  unfold preserves, final, try_except in *.
  destruct (body s) as [[[a|e] s1] t1]; simpl in *; [assumption|].
  destruct (catches e); [|assumption].
  specialize (Hh e s1). destruct (handler e s1) as [[r s2] t2]. simpl in *.
  now transitivity s1.
Qed.

Lemma pres_try_finally body fin :
  preserves R body -> preserves R fin -> preserves R (try_finally body fin).
Proof.
  intros Hb Hf s. specialize (Hb s).
  unfold preserves, final, try_finally in *.
  destruct (body s) as [[r s1] t1]. specialize (Hf s1).
  destruct (fin s1) as [[[|] s2] t2]; simpl in *; now transitivity s1.
Qed.

Lemma pres_for {A} (l : list A) (body : A -> M unit) :
  (forall x, preserves R (body x)) -> preserves R (for_ l body).
Proof.
  intros Hb. induction l as [|x l IH]; simpl.
  - apply pres_ret.
  - apply pres_bind; [apply Hb | intros _; exact IH].
Qed.

End Preserve.

#[local] Instance same_registry_preorder : PreOrder Registry.same_registry.
Proof.
  split.
  - intros s. reflexivity.
  - intros a b c Hab Hbc. unfold Registry.same_registry in *. congruence.
Qed.

#[local] Instance registry_grows_preorder : PreOrder Registry.registry_grows.
Proof.
  split.
  - intros s k H. exact H.
  - intros a b c Hab Hbc k H. apply Hbc, Hab, H.
Qed.

Ltac pres_auto :=
  repeat first
    [ match goal with
      | |- PreOrder _ => exact _
      | |- Registry.same_registry _ _ => reflexivity
      | |- Registry.registry_grows _ _ =>
          intros ? ?; cbn [ThreeD.extra_info];
          first [ assumption | apply lookup_insert_is_Some'; right; assumption ]
      | |- Registry.preserves _ (if ?b then _ else _) => destruct b
      | |- Registry.preserves _ (match ?x with _ => _ end) => destruct x
      | |- Registry.preserves _ (ThreeD.modify _) => apply pres_modify
      end
    | progress intros
    | apply pres_ret | apply pres_raise | apply pres_lift | apply pres_emit
    | apply pres_for | apply pres_try_except | apply pres_try_finally
    | apply pres_bind ].

Section RegistryFacts.
Import ThreeD Registry.
Variable w : world.

(** The whole handler, and with it every branch, only adds entries to
    [extra_info]. *)
Lemma handler_registry_grows (model : Model.t) :
  preserves registry_grows (on_selected_change w model).
Proof.
  unfold on_selected_change, on_py, on_shapes_file, on_stl, on_json,
    on_stepzip, display_module, display_assemblies, display_assembly,
    display_part, display_shape, display_vector, display_message, show,
    erase_and_log, erase_all, new_busy_info, del_busy_info, log_error.
  cbv zeta. pres_auto.
Qed.

Lemma shapes_file_same_registry msg call importer_shapes sel :
  preserves same_registry (on_shapes_file w msg call importer_shapes sel).
Proof.
  unfold on_shapes_file, display_shape, show, erase_all,
    new_busy_info, del_busy_info, log_error.
  pres_auto.
Qed.

Lemma stl_same_registry sel : preserves same_registry (on_stl w sel).
Proof.
  unfold on_stl, display_shape, show, erase_all,
    new_busy_info, del_busy_info, log_error.
  pres_auto.
Qed.

End RegistryFacts.

(** ** Exact runs *)

Section ExactRuns.
Import ThreeD Registry.
Local Open Scope list_scope.
Variable w : world.

Lemma for_cons {A} (x : A) (l : list A) (body : A -> M unit) :
  for_ (x :: l) body = (body x ;; for_ l body).
Proof. reflexivity. Qed.

Lemma bind_run_ok {A B} (m : M A) (f : A -> M B) s a s1 t1 :
  m s = (Ok a, s1, t1) ->
  (m ≫= f) s = (result (f a s1), final (f a s1), t1 ++ events (f a s1)).
Proof.
  intros H. unfold mbind, M_bind, result, final, events. rewrite H.
  now destruct (f a s1) as [[r s2] t2].
Qed.

Lemma bind_run_raise {A B} (m : M A) (f : A -> M B) s e s1 t1 :
  m s = (Raise e, s1, t1) -> (m ≫= f) s = (Raise e, s1, t1).
Proof. intros H. unfold mbind, M_bind. now rewrite H. Qed.

Lemma shown_app_nil s :
  {| shown := shown s ++ []; extra_info := extra_info s;
     busy_info := busy_info s |} = s.
Proof. destruct s. cbn. now rewrite app_nil_r. Qed.

Lemma display_shape_ok x s :
  display_error w x = None ->
  display_shape w x s
  = (Ok tt, {| shown := shown s ++ [ShapeItem x]; extra_info := extra_info s;
               busy_info := busy_info s |}, []).
Proof. intros H. unfold display_shape. now rewrite H. Qed.

Lemma display_shape_refused x e s :
  display_error w x = Some e -> display_shape w x s = (Raise e, s, []).
Proof. intros H. unfold display_shape. now rewrite H. Qed.

(** The loop over the anchors of a part. *)
Lemma anchors_run (an : list string) s :
  for_ an (fun anchor_name =>
             display_vector ;; display_vector ;; display_message anchor_name) s
  = (Ok tt, {| shown := shown s ++ anchor_items an; extra_info := extra_info s;
               busy_info := busy_info s |}, []).
Proof.
  revert s. induction an as [|a an IH]; intros s.
  - cbn. now rewrite shown_app_nil.
  - rewrite for_cons.
    erewrite bind_run_ok by reflexivity. rewrite IH.
    cbn [result final events fst snd shown extra_info busy_info app].
    unfold anchor_items. cbn [flat_map app].
    now rewrite <- !app_assoc.
Qed.

(** The loop of the STEP and IGES branches when every shape is accepted. *)
Lemma shapes_loop_run (shapes : list shape) s :
  Forall (fun x => display_error w x = None) shapes ->
  for_ shapes (fun shape_ => display_shape w shape_ ;; emit FitAll) s
  = (Ok tt, {| shown := shown s ++ List.map ShapeItem shapes;
               extra_info := extra_info s; busy_info := busy_info s |},
     repeat FitAll (length shapes)).
Proof.
  intros H. revert s. induction H as [|x shapes Hx _ IH]; intros s.
  - cbn. now rewrite shown_app_nil.
  - rewrite for_cons.
    erewrite bind_run_ok;
      [|erewrite bind_run_ok by (apply display_shape_ok; exact Hx);
        reflexivity].
    rewrite IH. unfold emit.
    cbn [result final events fst snd shown extra_info busy_info app
         List.map length repeat].
    now rewrite <- !app_assoc.
Qed.

(** The same loop when the viewer refuses one shape: the shapes before
    it are displayed, the loop stops there. *)
Lemma shapes_loop_stops (pre post : list shape) (bad : shape) e s :
  Forall (fun x => display_error w x = None) pre ->
  display_error w bad = Some e ->
  for_ (pre ++ bad :: post) (fun shape_ => display_shape w shape_ ;; emit FitAll) s
  = (Raise e, {| shown := shown s ++ List.map ShapeItem pre;
                 extra_info := extra_info s; busy_info := busy_info s |},
     repeat FitAll (length pre)).
Proof.
  intros H Hbad. revert s. induction H as [|x pre Hx _ IH]; intros s.
  - cbn [app List.map length repeat]. rewrite for_cons.
    erewrite bind_run_raise;
      [|erewrite bind_run_raise by (apply display_shape_refused; exact Hbad);
        reflexivity].
    now rewrite shown_app_nil.
  - cbn [app]. rewrite for_cons.
    erewrite bind_run_ok;
      [|erewrite bind_run_ok by (apply display_shape_ok; exact Hx);
        reflexivity].
    rewrite IH. unfold emit.
    cbn [result final events fst snd shown extra_info busy_info app
         List.map length repeat].
    now rewrite <- !app_assoc.
Qed.

(** An import under its busy indicator, by how its body ends. *)
Lemma window_returns msg call sel (body : M unit) s s1 t1 :
  body (with_busy (Some msg) s) = (Ok tt, s1, t1) ->
  (new_busy_info msg ;;
   try_finally
     (try_except (emit (Import call sel) ;; body) is_Exception log_error)
     del_busy_info) s
  = (Ok tt, with_busy None s1,
     BusyInfo msg :: Import call sel :: t1 ++ [DelBusyInfo]).
Proof.
  intros H.
  unfold new_busy_info, del_busy_info, try_finally, try_except, log_error,
    emit, modify, mbind, M_bind. cbn [fst snd].
  fold (with_busy (Some msg) s). rewrite H. reflexivity.
Qed.

Lemma window_catches msg call sel (body : M unit) s e s1 t1 :
  body (with_busy (Some msg) s) = (Raise e, s1, t1) ->
  is_Exception e = true ->
  (new_busy_info msg ;;
   try_finally
     (try_except (emit (Import call sel) ;; body) is_Exception log_error)
     del_busy_info) s
  = (Ok tt, with_busy None s1,
     BusyInfo msg :: Import call sel :: t1
       ++ [Log ERROR (exn_msg e); DelBusyInfo]).
Proof.
  intros H He.
  unfold new_busy_info, del_busy_info, try_finally, try_except, log_error,
    emit, modify, mbind, M_bind. cbn [fst snd].
  fold (with_busy (Some msg) s). rewrite H, He. cbn.
  now rewrite <- app_assoc.
Qed.

(** Whatever the body does, the panel after the import is the panel
    after the body, without its busy indicator. *)
Lemma window_final msg call sel (body : M unit) s :
  final ((new_busy_info msg ;;
          try_finally
            (try_except (emit (Import call sel) ;; body) is_Exception log_error)
            del_busy_info) s)
  = with_busy None (final (body (with_busy (Some msg) s))).
Proof.
  unfold new_busy_info, del_busy_info, try_finally, try_except, log_error,
    emit, modify, mbind, M_bind, final. cbn [fst snd].
  fold (with_busy (Some msg) s).
  destruct (body (with_busy (Some msg) s)) as [[[[]|e] s1] t1]; [reflexivity|].
  now destruct (is_Exception e).
Qed.

End ExactRuns.

(** ** Displaying a part *)

Section PartFacts.
Import ThreeD Registry.
Local Open Scope list_scope.
Variable w : world.

Lemma display_part_ok p s sh an :
  transformed_shape p = Ok sh ->
  display_error w sh = None ->
  transformed_anchors p = Ok an ->
  display_part w p s
  = (Ok tt,
     {| shown := shown s ++ ShapeItem sh :: anchor_items an;
        extra_info := <[sh := properties p]> (extra_info s);
        busy_info := busy_info s |}, []).
Proof.
  intros Hs Hd Ha. unfold display_part. rewrite Hs, lift_then.
  erewrite bind_run_ok by (apply display_shape_ok; exact Hd).
  erewrite bind_run_ok by reflexivity.
  rewrite Ha, lift_then, anchors_run.
  cbn [result final events fst snd shown extra_info busy_info app].
  now rewrite <- app_assoc.
Qed.

End PartFacts.

(** X9. A part whose shape and anchors are computed and whose shape the
    viewer accepts is displayed as its shape followed, for each anchor in
    order, by two vectors and the name of the anchor; its properties are
    stored in [extra_info] under the shape; nothing is logged. *)
Theorem display_part_run
    (w : ThreeD.world) (p : ThreeD.part) (s : ThreeD.panel)
    (sh : ThreeD.shape) (an : list string) :
  ThreeD.transformed_shape p = Ok sh ->
  ThreeD.display_error w sh = None ->
  ThreeD.transformed_anchors p = Ok an ->
  ThreeD.display_part w p s
  = (Ok tt,
     {| ThreeD.shown :=
          (ThreeD.shown s ++ ThreeD.ShapeItem sh :: Registry.anchor_items an)%list;
        ThreeD.extra_info := <[sh := ThreeD.properties p]> (ThreeD.extra_info s);
        ThreeD.busy_info := ThreeD.busy_info s |}, [])
  /\ length (Registry.anchor_items an) = (3 * length an)%nat.
Proof.
  intros Hs Hd Ha. split; [now apply display_part_ok|].
  clear. unfold Registry.anchor_items.
  induction an as [|a an IH]; cbn [flat_map app length];
    [reflexivity | rewrite IH; lia].
Qed.

Lemma display_part_run_witness :
  ThreeD.shown
    (ThreeD.final (ThreeD.display_part (Scenario.fair "" true Scenario.empty_module)
                     Scenario.a_part Scenario.fresh))
  = [ThreeD.ShapeItem 5%nat; ThreeD.VectorItem; ThreeD.VectorItem;
     ThreeD.MessageItem "top"].
Proof.
  exact (f_equal (fun o => ThreeD.shown (ThreeD.final o))
           (proj1 (display_part_run (Scenario.fair "" true Scenario.empty_module)
                     Scenario.a_part Scenario.fresh 5%nat ["top"]
                     eq_refl eq_refl eq_refl))).
Defined.

(** X10. When the shape of a part cannot be computed, or the viewer
    refuses it, [display_part] raises and changes nothing: nothing is
    displayed and nothing is stored in [extra_info]. *)
Theorem display_part_refused
    (w : ThreeD.world) (p : ThreeD.part) (s : ThreeD.panel) (e : exn) :
  (ThreeD.transformed_shape p = Raise e
   \/ exists sh, ThreeD.transformed_shape p = Ok sh
                 /\ ThreeD.display_error w sh = Some e) ->
  ThreeD.display_part w p s = (Raise e, s, []).
Proof.
  intros [H | (sh & Hs & Hd)]; unfold ThreeD.display_part.
  - now rewrite H.
  - rewrite Hs, lift_then.
    now erewrite bind_run_raise by (apply display_shape_refused; exact Hd).
Qed.

Lemma display_part_refused_witness :
  ThreeD.display_part (Scenario.fair "" true Scenario.empty_module)
    {| ThreeD.transformed_shape := Raise (Exn KeyError "a");
       ThreeD.properties := [];
       ThreeD.transformed_anchors := Ok [] |}
    (Scenario.showing 7%nat)
  = (Raise (Exn KeyError "a"), Scenario.showing 7%nat, []).
Proof.
  apply (display_part_refused (Scenario.fair "" true Scenario.empty_module)).
  left. reflexivity.
Defined.

(** X11. When the anchors of a part cannot be computed, [display_part]
    raises after the fact: the shape is already displayed and its
    properties already stored, and no anchor is shown. *)
Theorem display_part_anchors_fail
    (w : ThreeD.world) (p : ThreeD.part) (s : ThreeD.panel)
    (sh : ThreeD.shape) (e : exn) :
  ThreeD.transformed_shape p = Ok sh ->
  ThreeD.display_error w sh = None ->
  ThreeD.transformed_anchors p = Raise e ->
  ThreeD.display_part w p s
  = (Raise e,
     {| ThreeD.shown := (ThreeD.shown s ++ [ThreeD.ShapeItem sh])%list;
        ThreeD.extra_info := <[sh := ThreeD.properties p]> (ThreeD.extra_info s);
        ThreeD.busy_info := ThreeD.busy_info s |}, []).
Proof.
  intros Hs Hd Ha. unfold ThreeD.display_part. rewrite Hs, lift_then.
  erewrite bind_run_ok by (apply display_shape_ok; exact Hd).
  erewrite bind_run_ok by reflexivity.
  now rewrite Ha.
Qed.

Lemma display_part_anchors_fail_witness :
  ThreeD.display_part (Scenario.fair "" true Scenario.empty_module)
    {| ThreeD.transformed_shape := Ok 8%nat;
       ThreeD.properties := [];
       ThreeD.transformed_anchors := Raise (Exn KeyError "a") |}
    Scenario.fresh
  = (Raise (Exn KeyError "a"),
     {| ThreeD.shown := [ThreeD.ShapeItem 8%nat];
        ThreeD.extra_info := <[8%nat := []]> ∅;
        ThreeD.busy_info := None |}, []).
Proof.
  exact (display_part_anchors_fail (Scenario.fair "" true Scenario.empty_module)
           {| ThreeD.transformed_shape := Ok 8%nat;
              ThreeD.properties := [];
              ThreeD.transformed_anchors := Raise (Exn KeyError "a") |}
           Scenario.fresh 8%nat (Exn KeyError "a") eq_refl eq_refl eq_refl).
Defined.

(** X12. A part that was displayed can be inspected: selecting its shape
    gives one message box with the bounding-box lines and one line for
    each of the properties of the part. *)
Theorem displayed_part_readout
    (w : ThreeD.world) (p : ThreeD.part) (s : ThreeD.panel)
    (sh : ThreeD.shape) (an : list string)
    (F : Type) (fsub fadd fdiv : F -> F -> F) (two : F) (fmt_f : F -> string)
    (bbox_Get : ThreeD.shape -> F * F * F * F * F * F)
    (str_shapes : list ThreeD.shape -> string) :
  ThreeD.transformed_shape p = Ok sh ->
  ThreeD.display_error w sh = None ->
  ThreeD.transformed_anchors p = Ok an ->
  let s' := ThreeD.final (ThreeD.display_part w p s) in
  ThreeD.display_extra_info F fsub fadd fdiv two fmt_f bbox_Get str_shapes [sh] s'
  = (Ok tt, s',
     [MessageBox
        (ThreeD.join_lines
           ([str_shapes [sh]; ""]
            ++ ThreeD.bbox_lines F fsub fadd fdiv two fmt_f bbox_Get sh
            ++ [""] ++ List.map ThreeD.prop_line (ThreeD.properties p))%list)
        "Part Info"]).
Proof.
  intros Hs Hd Ha s'. apply readout_of_registered. subst s'.
  rewrite (display_part_ok w p s sh an Hs Hd Ha).
  cbn [ThreeD.final fst snd ThreeD.extra_info]. apply lookup_insert_eq.
Qed.

Lemma displayed_part_readout_witness :
  ThreeD.events
    (ThreeD.display_extra_info Z Z.sub Z.add Z.div 2 pretty
       (fun _ => (0, 0, 0, 4, 6, 8)) (fun _ => "[shape]") [5%nat]
       (ThreeD.final (ThreeD.display_part
                        (Scenario.fair "" true Scenario.empty_module)
                        Scenario.a_part Scenario.fresh)))
  = [MessageBox
       (ThreeD.join_lines
          [ "[shape]"; ""; "Bounding box :"; "  dx=4, dy=6, dz=8.";
            "Bounding box center :"; "  x=2, y=3, z=4"; "";
            " mass : 12.5 [kg]" ])
       "Part Info"].
Proof.
  exact (f_equal ThreeD.events
           (displayed_part_readout (Scenario.fair "" true Scenario.empty_module)
              Scenario.a_part Scenario.fresh 5%nat ["top"]
              Z Z.sub Z.add Z.div 2 pretty
              (fun _ => (0, 0, 0, 4, 6, 8)) (fun _ => "[shape]")
              eq_refl eq_refl eq_refl)).
Defined.

(** ** The registry of properties *)

(** X13. The handler never removes an entry of [extra_info]: a shape that
    has properties stored before a selection still has them afterwards,
    also when the viewport was emptied in between. *)
Theorem registry_never_shrinks
    (w : ThreeD.world) (model : Model.t) (s : ThreeD.panel) (k : ThreeD.shape) :
  is_Some (ThreeD.extra_info s !! k) ->
  is_Some (ThreeD.extra_info
             (ThreeD.final (ThreeD.on_selected_change w model s)) !! k).
Proof. apply (handler_registry_grows w model s k). Qed.

Lemma registry_never_shrinks_witness :
  let s1 := ThreeD.final
              (ThreeD.on_selected_change
                 (Scenario.fair "" true Scenario.empty_module)
                 (Scenario.select "/project/bracket.stepzip") Scenario.fresh) in
  let s2 := ThreeD.final
              (ThreeD.on_selected_change
                 (Scenario.fair "" true Scenario.empty_module)
                 (Scenario.select "/project/notes.txt") s1) in
  ThreeD.shown s2 = [] /\ is_Some (ThreeD.extra_info s2 !! 5%nat).
Proof.
  split; [reflexivity|].
  apply (registry_never_shrinks (Scenario.fair "" true Scenario.empty_module)
           (Scenario.select "/project/notes.txt")).
  exists (ThreeD.properties Scenario.a_part). reflexivity.
Defined.

(** X14. The STEP, IGES and STL branches leave [extra_info] as it was, so
    a shape without an entry before such an import has none after it:
    selecting it raises [KeyError] and shows no message box. *)
Theorem shape_imports_register_nothing
    (w : ThreeD.world) (msg : string) (call : importer)
    (importer_shapes : string -> res (list ThreeD.shape)) (sel : string)
    (s : ThreeD.panel) (sh : ThreeD.shape) (rest : list ThreeD.shape)
    (F : Type) (fsub fadd fdiv : F -> F -> F) (two : F) (fmt_f : F -> string)
    (bbox_Get : ThreeD.shape -> F * F * F * F * F * F)
    (str_shapes : list ThreeD.shape -> string) :
  ThreeD.extra_info s !! sh = None ->
  let s1 := ThreeD.final (ThreeD.on_shapes_file w msg call importer_shapes sel s) in
  let s2 := ThreeD.final (ThreeD.on_stl w sel s) in
  ThreeD.extra_info s1 = ThreeD.extra_info s
  /\ ThreeD.extra_info s2 = ThreeD.extra_info s
  /\ ThreeD.display_extra_info F fsub fadd fdiv two fmt_f bbox_Get str_shapes
       (sh :: rest) s1
     = (Raise (Exn KeyError (pretty sh)), s1, [])
  /\ ThreeD.display_extra_info F fsub fadd fdiv two fmt_f bbox_Get str_shapes
       (sh :: rest) s2
     = (Raise (Exn KeyError (pretty sh)), s2, []).
Proof.
  intros H s1 s2.
  assert (H1 : ThreeD.extra_info s1 = ThreeD.extra_info s)
    by apply (shapes_file_same_registry w msg call importer_shapes sel s).
  assert (H2 : ThreeD.extra_info s2 = ThreeD.extra_info s)
    by apply (stl_same_registry w sel s).
  repeat split; try assumption;
    apply readout_of_unregistered; congruence.
Qed.

Lemma shape_imports_register_nothing_witness :
  let s1 := ThreeD.final
              (ThreeD.on_shapes_file (Scenario.fair "" true Scenario.empty_module)
                 "Loading IGES ..." IgesImporter_call
                 (ThreeD.IgesImporter_shapes
                    (Scenario.fair "" true Scenario.empty_module))
                 "/project/hull.igs" Scenario.fresh) in
  ThreeD.display_extra_info Z Z.sub Z.add Z.div 2 pretty
    (fun _ => (0, 0, 0, 1, 1, 1)) (fun _ => "") [3%nat] s1
  = (Raise (Exn KeyError "3"), s1, []).
Proof.
  exact (proj1 (proj2 (proj2
           (shape_imports_register_nothing
              (Scenario.fair "" true Scenario.empty_module)
              "Loading IGES ..." IgesImporter_call
              (ThreeD.IgesImporter_shapes
                 (Scenario.fair "" true Scenario.empty_module))
              "/project/hull.igs" Scenario.fresh 3%nat []
              Z Z.sub Z.add Z.div 2 pretty
              (fun _ => (0, 0, 0, 1, 1, 1)) (fun _ => "") eq_refl)))).
Defined.

(** ** The STEP and IGES branches *)

(** X15. When the importer returns and the viewer accepts every shape,
    the earlier scene is replaced by exactly the imported shapes in
    their order, the view is fitted once per shape, the number of shapes
    is logged, and the busy indicator is gone. *)
Theorem shapes_import_shows_shapes
    (w : ThreeD.world) (msg : string) (call : importer)
    (importer_shapes : string -> res (list ThreeD.shape)) (sel : string)
    (s : ThreeD.panel) (shapes : list ThreeD.shape) :
  importer_shapes sel = Ok shapes ->
  Forall (fun x => ThreeD.display_error w x = None) shapes ->
  ThreeD.on_shapes_file w msg call importer_shapes sel s
  = (Ok tt,
     {| ThreeD.shown := List.map ThreeD.ShapeItem shapes;
        ThreeD.extra_info := ThreeD.extra_info s;
        ThreeD.busy_info := None |},
     (BusyInfo msg :: Import call sel
      :: Log INFO (pretty (length shapes) +:+ " shapes in " +:+ sel)
      :: repeat FitAll (length shapes) ++ [DelBusyInfo])%list).
Proof.
  intros Himp Hok. unfold ThreeD.on_shapes_file. rewrite erase_then.
  erewrite window_returns.
  2:{ rewrite Himp, lift_then.
      erewrite bind_run_ok by reflexivity.
      rewrite (shapes_loop_run w shapes _ Hok). reflexivity. }
  reflexivity.
Qed.

Lemma shapes_import_shows_shapes_witness :
  ThreeD.shown
    (ThreeD.final
       (ThreeD.on_shapes_file (Scenario.fair "" true Scenario.empty_module)
          "Loading STEP ..." StepImporter_call
          (ThreeD.StepImporter_shapes (Scenario.fair "" true Scenario.empty_module))
          "/project/bracket.step" (Scenario.showing 7%nat)))
  = [ThreeD.ShapeItem 1%nat; ThreeD.ShapeItem 2%nat].
Proof.
  exact (f_equal (fun o => ThreeD.shown (ThreeD.final o))
           (shapes_import_shows_shapes
              (Scenario.fair "" true Scenario.empty_module)
              "Loading STEP ..." StepImporter_call
              (ThreeD.StepImporter_shapes
                 (Scenario.fair "" true Scenario.empty_module))
              "/project/bracket.step" (Scenario.showing 7%nat)
              [1%nat; 2%nat] eq_refl
              (@List.Forall_cons _ _ _ _ eq_refl
                 (@List.Forall_cons _ _ _ _ eq_refl (@List.Forall_nil _ _))))).
Defined.

(** X16. When the viewer refuses one of the imported shapes, the import
    stops there: the shapes before it stay displayed, those after it are
    not shown, the error is logged and the handler goes on. *)
Theorem shapes_import_stops_at_refused
    (w : ThreeD.world) (msg : string) (call : importer)
    (importer_shapes : string -> res (list ThreeD.shape)) (sel : string)
    (s : ThreeD.panel) (pre post : list ThreeD.shape) (bad : ThreeD.shape)
    (e : exn) :
  importer_shapes sel = Ok (pre ++ bad :: post)%list ->
  Forall (fun x => ThreeD.display_error w x = None) pre ->
  ThreeD.display_error w bad = Some e ->
  is_Exception e = true ->
  ThreeD.on_shapes_file w msg call importer_shapes sel s
  = (Ok tt,
     {| ThreeD.shown := List.map ThreeD.ShapeItem pre;
        ThreeD.extra_info := ThreeD.extra_info s;
        ThreeD.busy_info := None |},
     (BusyInfo msg :: Import call sel
      :: Log INFO (pretty (length (pre ++ bad :: post)) +:+ " shapes in " +:+ sel)
      :: repeat FitAll (length pre)
      ++ [Log ERROR (exn_msg e); DelBusyInfo])%list).
Proof.
  intros Himp Hok Hbad He. unfold ThreeD.on_shapes_file. rewrite erase_then.
  erewrite window_catches; [| |exact He].
  2:{ rewrite Himp, lift_then.
      erewrite bind_run_ok by reflexivity.
      rewrite (shapes_loop_stops w pre post bad e _ Hok Hbad). reflexivity. }
  reflexivity.
Qed.

Lemma shapes_import_stops_at_refused_witness :
  let w := {| ThreeD.isdir := fun _ => false;
              ThreeD.read_text := fun _ => Ok "";
              ThreeD.is_valid_python := fun _ => true;
              ThreeD.load_source := fun _ => Ok Scenario.empty_module;
              ThreeD.display_error :=
                fun x => if Nat.eqb x 2 then Some (Exn RuntimeError "null shape")
                         else None;
              ThreeD.anchorable_part_from_py_script := fun _ => Ok Scenario.a_part;
              ThreeD.StepImporter_shapes := fun _ => Ok [1%nat; 2%nat; 3%nat];
              ThreeD.IgesImporter_shapes := fun _ => Ok [];
              ThreeD.StlImporter_shape := fun _ => Ok 4%nat;
              ThreeD.json_data_keys := fun _ => Ok [];
              ThreeD.anchorable_part_from_library := fun _ _ => Ok Scenario.a_part;
              ThreeD.anchorable_part_from_stepzip := fun _ => Ok Scenario.a_part |} in
  ThreeD.shown
    (ThreeD.final
       (ThreeD.on_shapes_file w "Loading STEP ..." StepImporter_call
          (ThreeD.StepImporter_shapes w) "/project/bracket.step" Scenario.fresh))
  = [ThreeD.ShapeItem 1%nat].
Proof.
  intros w.
  exact (f_equal (fun o => ThreeD.shown (ThreeD.final o))
           (shapes_import_stops_at_refused w "Loading STEP ..." StepImporter_call
              (ThreeD.StepImporter_shapes w) "/project/bracket.step"
              Scenario.fresh [1%nat] [3%nat] 2%nat (Exn RuntimeError "null shape")
              eq_refl
              (@List.Forall_cons _ (fun x => ThreeD.display_error w x = None)
                 1%nat [] eq_refl (@List.Forall_nil _ _))
              eq_refl eq_refl)).
Defined.

(** ** The parts-library branch *)

Section LibraryFacts.
Import ThreeD Registry.
Local Open Scope list_scope.
Variable w : world.

(** The first pass over the keys, which only fetches the parts. *)
Lemma library_scan_run sel (keys : list string) s :
  (forall k, In k keys -> exists p, anchorable_part_from_library w sel k = Ok p) ->
  for_ keys (fun k =>
    emit (Import (anchorable_part_from_library_call k) sel) ;;
    _ ← lift (anchorable_part_from_library w sel k);
    mret tt) s
  = (Ok tt, s,
     List.map (fun k => Import (anchorable_part_from_library_call k) sel) keys).
Proof.
  induction keys as [|k keys IH]; intros H; [reflexivity|].
  rewrite for_cons.
  destruct (H k (or_introl eq_refl)) as [p Hp].
  erewrite bind_run_ok.
  2:{ unfold mbind, M_bind, emit, lift. rewrite Hp. reflexivity. }
  rewrite IH by (intros k' Hk'; apply H; now right).
  reflexivity.
Qed.

Lemma library_scan_fails sel (keys : list string) s :
  (exists k, In k keys
             /\ exists e, anchorable_part_from_library w sel k = Raise e) ->
  exists e' t,
    for_ keys (fun k =>
      emit (Import (anchorable_part_from_library_call k) sel) ;;
      _ ← lift (anchorable_part_from_library w sel k);
      mret tt) s
    = (Raise e', s, t).
Proof.
  induction keys as [|k keys IH]; intros (k0 & Hin & e & He); [destruct Hin|].
  rewrite for_cons.
  destruct (anchorable_part_from_library w sel k) as [p|e0] eqn:Hk.
  - destruct IH as (e' & t & Ht).
    { destruct Hin as [<-|Hin]; [congruence|]. exists k0. eauto. }
    erewrite bind_run_ok.
    2:{ unfold mbind, M_bind, emit, lift. reflexivity. }
    rewrite Ht. eexists _, _. reflexivity.
  - erewrite bind_run_raise.
    2:{ unfold mbind, M_bind, emit, lift. reflexivity. }
    eexists _, _. reflexivity.
Qed.

(** The second pass, which fetches each part again and displays it. *)
Lemma library_show_run sel (keys : list string) s :
  (forall k, In k keys ->
             exists p, anchorable_part_from_library w sel k = Ok p
                       /\ displayable w p) ->
  exists s',
    for_ keys (fun k =>
      emit (Import (anchorable_part_from_library_call k) sel) ;;
      library_part ← lift (anchorable_part_from_library w sel k);
      display_part w library_part ;;
      display_message k ;;
      emit FitAll) s
    = (Ok tt, s',
       flat_map (fun k => [Import (anchorable_part_from_library_call k) sel;
                           FitAll]) keys).
Proof.
  revert s. induction keys as [|k keys IH]; intros s H.
  - exists s. reflexivity.
  - destruct (H k (or_introl eq_refl)) as (p & Hp & sh & an & Hs & Hd & Ha).
    rewrite for_cons.
    erewrite bind_run_ok.
    2:{ erewrite bind_run_ok by reflexivity.
        rewrite Hp, lift_then.
        erewrite bind_run_ok by (apply display_part_ok; eassumption).
        erewrite bind_run_ok by reflexivity.
        unfold emit. reflexivity. }
    edestruct IH as (s' & ->); [intros k' Hk'; apply H; now right|].
    eexists. reflexivity.
Qed.

Lemma imports_calls sel (keys : list string) :
  imports (List.map (fun k => Import (anchorable_part_from_library_call k) sel)
             keys)
  = List.map anchorable_part_from_library_call keys.
Proof. induction keys as [|k keys IH]; cbn; [reflexivity | now rewrite <- IH]. Qed.

Lemma imports_calls_fit sel (keys : list string) :
  imports (flat_map (fun k => [Import (anchorable_part_from_library_call k) sel;
                               FitAll]) keys)
  = List.map anchorable_part_from_library_call keys.
Proof. induction keys as [|k keys IH]; cbn; [reflexivity | now rewrite <- IH]. Qed.

End LibraryFacts.

(** X17. When a parts library loads, every part is fetched twice: after
    [json.load] the importer is called once per key in a first pass, and
    once more per key, in the same order, in the pass that displays. *)
Theorem library_parts_fetched_twice
    (w : ThreeD.world) (sel content : string) (keys : list string)
    (s : ThreeD.panel) :
  ThreeD.read_text w sel = Ok content ->
  PyStr.contains "metadata" content = true ->
  ThreeD.json_data_keys w sel = Ok keys ->
  (forall k, In k keys ->
             exists p, ThreeD.anchorable_part_from_library w sel k = Ok p
                       /\ Registry.displayable w p) ->
  ThreeD.result (ThreeD.on_json w sel s) = Ok tt
  /\ ThreeD.imports (ThreeD.events (ThreeD.on_json w sel s))
     = (json_load :: List.map anchorable_part_from_library_call keys
        ++ List.map anchorable_part_from_library_call keys)%list.
Proof.
  intros Hread Hc Hkeys Hparts.
  rewrite (on_json_run w sel content s Hread), Hc.
  destruct (library_show_run w sel keys
              (Registry.with_busy (Some "Loading parts library ...")
                 (Logic.erased s)) Hparts) as (s' & Hshow).
  erewrite window_returns.
  2:{ rewrite Hkeys, lift_then.
      erewrite bind_run_ok.
      2:{ apply library_scan_run. intros k Hk.
          destruct (Hparts k Hk) as (p & Hp & _). now exists p. }
      rewrite Hshow. reflexivity. }
  split; [reflexivity|].
  unfold ThreeD.events. cbn [snd ThreeD.final ThreeD.result fst].
  change (ThreeD.imports (BusyInfo ?m :: Import ?c ?p :: ?l))
    with (c :: ThreeD.imports l).
  rewrite !imports_app, imports_calls, imports_calls_fit.
  cbn. now rewrite app_nil_r.
Qed.

Lemma library_parts_fetched_twice_witness :
  ThreeD.imports
    (ThreeD.events
       (ThreeD.on_json (Scenario.fair "{ metadata }" true Scenario.empty_module)
          "/project/library.json" Scenario.fresh))
  = [ json_load;
      anchorable_part_from_library_call "bolt";
      anchorable_part_from_library_call "nut";
      anchorable_part_from_library_call "bolt";
      anchorable_part_from_library_call "nut" ].
Proof.
  refine (proj2 (library_parts_fetched_twice
                   (Scenario.fair "{ metadata }" true Scenario.empty_module)
                   "/project/library.json" "{ metadata }" ["bolt"; "nut"]
                   Scenario.fresh eq_refl eq_refl eq_refl _)).
  intros k _. exists Scenario.a_part. split; [reflexivity|].
  exists 5%nat, ["top"]. repeat split.
Defined.

(** X18. A parts library with a part that cannot be fetched shows
    nothing: the first pass fetches every part before anything is
    displayed, so the viewport stays empty, [extra_info] is as before and
    the busy indicator is gone. *)
Theorem library_with_bad_part_shows_nothing
    (w : ThreeD.world) (sel content : string) (keys : list string)
    (s : ThreeD.panel) (k : string) (e : exn) :
  ThreeD.read_text w sel = Ok content ->
  PyStr.contains "metadata" content = true ->
  ThreeD.json_data_keys w sel = Ok keys ->
  In k keys ->
  ThreeD.anchorable_part_from_library w sel k = Raise e ->
  let s' := ThreeD.final (ThreeD.on_json w sel s) in
  ThreeD.shown s' = []
  /\ ThreeD.extra_info s' = ThreeD.extra_info s
  /\ ThreeD.busy_info s' = None.
Proof.
  intros Hread Hc Hkeys Hin Hk s'. subst s'.
  rewrite (on_json_run w sel content s Hread), Hc, window_final.
  rewrite Hkeys, lift_then.
  destruct (library_scan_fails w sel keys
              (Registry.with_busy (Some "Loading parts library ...")
                 (Logic.erased s))) as (e' & t & Hs); [now eauto|].
  erewrite bind_run_raise by exact Hs.
  repeat split.
Qed.

Lemma library_with_bad_part_shows_nothing_witness :
  let w := {| ThreeD.isdir := fun _ => false;
              ThreeD.read_text := fun _ => Ok "metadata";
              ThreeD.is_valid_python := fun _ => true;
              ThreeD.load_source := fun _ => Ok Scenario.empty_module;
              ThreeD.display_error := fun _ => None;
              ThreeD.anchorable_part_from_py_script := fun _ => Ok Scenario.a_part;
              ThreeD.StepImporter_shapes := fun _ => Ok [];
              ThreeD.IgesImporter_shapes := fun _ => Ok [];
              ThreeD.StlImporter_shape := fun _ => Ok 4%nat;
              ThreeD.json_data_keys := fun _ => Ok ["bolt"; "nut"];
              ThreeD.anchorable_part_from_library :=
                fun _ k => if String.eqb k "nut"
                           then Raise (Exn KeyError "nut")
                           else Ok Scenario.a_part;
              ThreeD.anchorable_part_from_stepzip := fun _ => Ok Scenario.a_part |} in
  ThreeD.shown (ThreeD.final (ThreeD.on_json w "/project/library.json"
                                (Scenario.showing 7%nat))) = [].
Proof.
  intros w.
  exact (proj1 (library_with_bad_part_shows_nothing w "/project/library.json"
                  "metadata" ["bolt"; "nut"] (Scenario.showing 7%nat) "nut"
                  (Exn KeyError "nut") eq_refl eq_refl eq_refl
                  (or_intror (or_introl eq_refl)) eq_refl)).
Defined.

(** ** More on the selection handler *)

(** X19. When a directory is selected the handler empties the viewport
    and does nothing else: no importer is called, no busy indicator is
    created, [extra_info] is untouched, and only the two opening and the
    closing debug entries are logged around [Layout]. *)
Theorem directory_selection_clears
    (w : ThreeD.world) (model : Model.t) (s : ThreeD.panel) :
  ThreeD.isdir w (Model.selected model) = true ->
  ThreeD.on_selected_change w model s
  = (Ok tt,
     {| ThreeD.shown := []; ThreeD.extra_info := ThreeD.extra_info s;
        ThreeD.busy_info := ThreeD.busy_info s |},
     [ Log DEBUG "Selection changed";
       Log DEBUG ("sel : " +:+ Model.selected model);
       Layout;
       Log DEBUG "code change detected in 3D panel" ]).
Proof.
  intros Hdir. unfold ThreeD.on_selected_change. rewrite Hdir. reflexivity.
Qed.

Lemma directory_selection_clears_witness :
  let w := {| ThreeD.isdir := fun _ => true;
              ThreeD.read_text := fun _ => Raise (Exn OSError "Is a directory");
              ThreeD.is_valid_python := fun _ => false;
              ThreeD.load_source := fun _ => Ok Scenario.empty_module;
              ThreeD.display_error := fun _ => None;
              ThreeD.anchorable_part_from_py_script := fun _ => Ok Scenario.a_part;
              ThreeD.StepImporter_shapes := fun _ => Ok [];
              ThreeD.IgesImporter_shapes := fun _ => Ok [];
              ThreeD.StlImporter_shape := fun _ => Ok 4%nat;
              ThreeD.json_data_keys := fun _ => Ok [];
              ThreeD.anchorable_part_from_library := fun _ _ => Ok Scenario.a_part;
              ThreeD.anchorable_part_from_stepzip := fun _ => Ok Scenario.a_part |} in
  ThreeD.shown
    (ThreeD.final (ThreeD.on_selected_change w (Scenario.select "/project/parts.py")
                     (Scenario.showing 7%nat))) = [].
Proof.
  intros w.
  exact (f_equal (fun o => ThreeD.shown (ThreeD.final o))
           (directory_selection_clears w (Scenario.select "/project/parts.py")
              (Scenario.showing 7%nat) eq_refl)).
Defined.

(** X20. On a file the handler lets an exception out only in two cases:
    the exception is not of class [Exception] ([SystemExit],
    [KeyboardInterrupt]), or it was raised by reading the selected file,
    which happens before any [try]. *)
Theorem handler_exceptions
    (w : ThreeD.world) (model : Model.t) (s : ThreeD.panel) (e : exn) :
  ThreeD.isdir w (Model.selected model) = false ->
  ThreeD.result (ThreeD.on_selected_change w model s) = Raise e ->
  is_Exception e = false
  \/ ThreeD.read_text w (Model.selected model) = Raise e.
Proof. exact (handler_lets_out w model s e). Qed.

Lemma handler_exceptions_witness :
  is_Exception (Exn OSError "Permission denied") = false
  \/ ThreeD.read_text (Scenario.unreadable (Exn OSError "Permission denied"))
       "/project/library.json"
     = Raise (Exn OSError "Permission denied").
Proof.
  exact (handler_exceptions (Scenario.unreadable (Exn OSError "Permission denied"))
           (Scenario.select "/project/library.json") Scenario.fresh
           (Exn OSError "Permission denied") eq_refl eq_refl).
Defined.

(** X21. A [KeyError] raised while an assembly is displayed is handled on
    the spot: the viewport is emptied, the exception is logged and
    [display_module] returns; any other exception leaves what was already
    displayed and goes on to the caller. *)
Theorem assembly_key_error_clears
    (w : ThreeD.world) (sel : string) (m : ThreeD.module_) (a : ThreeD.assembly)
    (s s1 : ThreeD.panel) (e : exn) (t1 : list event) :
  ThreeD.__shapes__ m = None ->
  ThreeD.__assembly__ m = Some a ->
  ThreeD.display_assembly w a (Logic.erased s) = (Raise e, s1, t1) ->
  ThreeD.display_module w sel m s
  = if is_KeyError e
    then (Ok tt, Logic.erased s1,
          (Log INFO (sel +:+ " has assembly") :: t1 ++ [LogException e])%list)
    else (Raise e, s1, Log INFO (sel +:+ " has assembly") :: t1).
Proof.
  intros Hs Ha Hrun. unfold ThreeD.display_module.
  rewrite erase_then, Hs, Ha.
  erewrite bind_run_ok by reflexivity.
  unfold ThreeD.try_except.
  erewrite bind_run_raise by exact Hrun.
  destruct (is_KeyError e); reflexivity.
Qed.

Lemma assembly_key_error_clears_witness :
  let a := {| ThreeD._parts :=
                [ Scenario.a_part;
                  {| ThreeD.transformed_shape := Raise (Exn KeyError "flange");
                     ThreeD.properties := [];
                     ThreeD.transformed_anchors := Ok [] |} ] |} in
  let m := {| ThreeD.__shape__ := None; ThreeD.__shapes__ := None;
              ThreeD.__anchors__ := false; ThreeD.__properties__ := false;
              ThreeD.__assembly__ := Some a; ThreeD.__assemblies__ := None |} in
  ThreeD.display_module (Scenario.fair "" true m) "frame.py" m
    (Scenario.showing 7%nat)
  = (Ok tt,
     {| ThreeD.shown := [];
        ThreeD.extra_info := <[5%nat := ThreeD.properties Scenario.a_part]> ∅;
        ThreeD.busy_info := None |},
     [Log INFO "frame.py has assembly"; LogException (Exn KeyError "flange")]).
Proof.
  intros a m.
  exact (assembly_key_error_clears (Scenario.fair "" true m) "frame.py" m a
           (Scenario.showing 7%nat)
           {| ThreeD.shown := [ThreeD.ShapeItem 5%nat; ThreeD.VectorItem;
                               ThreeD.VectorItem; ThreeD.MessageItem "top"];
              ThreeD.extra_info := <[5%nat := ThreeD.properties Scenario.a_part]> ∅;
              ThreeD.busy_info := None |}
           (Exn KeyError "flange") [] eq_refl eq_refl eq_refl).
Defined.

(** ** More on the info readout *)

Section ReadoutLoop.
Import ThreeD.
Local Open Scope list_scope.
Variable F : Type.
Variables fsub fadd fdiv : F -> F -> F.
Variable two : F.
Variable fmt_f : F -> string.
Variable bbox_Get : shape -> F * F * F * F * F * F.
Variable str_shapes : list shape -> string.

(** The message box of one shape of the selection [shp]. *)
Abbreviation box shp s :=
  (fun shape_ : shape =>
     MessageBox
       (join_lines
          (([str_shapes shp; ""]
            ++ bbox_lines F fsub fadd fdiv two fmt_f bbox_Get shape_ ++ [""])
           ++ List.map prop_line
                (default [] (extra_info s !! shape_ : option props))))
       "Part Info").

Abbreviation step shp :=
  (fun shape_ : shape =>
     let message :=
       [str_shapes shp; ""]
       ++ bbox_lines F fsub fadd fdiv two fmt_f bbox_Get shape_ ++ [""] in
     ps ← extra_info_getitem shape_;
     emit (MessageBox (join_lines (message ++ List.map prop_line ps)) "Part Info")).

Lemma readout_step_ok shp x s :
  is_Some (extra_info s !! x) -> step shp x s = (Ok tt, s, [box shp s x]).
Proof.
  intros [ps Hps]. cbv zeta. unfold extra_info_getitem, emit, mbind, M_bind.
  rewrite Hps. reflexivity.
Qed.

Lemma readout_loop_ok shp (l : list shape) s :
  Forall (fun x => is_Some (extra_info s !! x)) l ->
  for_ l (step shp) s = (Ok tt, s, List.map (box shp s) l).
Proof.
  induction 1 as [|x l Hx _ IH]; [reflexivity|].
  rewrite for_cons. erewrite bind_run_ok by (apply readout_step_ok; exact Hx).
  now rewrite IH.
Qed.

Lemma readout_loop_stops shp (pre rest : list shape) (bad : shape) s :
  Forall (fun x => is_Some (extra_info s !! x)) pre ->
  extra_info s !! bad = None ->
  for_ (pre ++ bad :: rest) (step shp) s
  = (Raise (Exn KeyError (pretty bad)), s, List.map (box shp s) pre).
Proof.
  intros Hpre Hbad. induction Hpre as [|x pre Hx _ IH].
  - cbn [app List.map]. rewrite for_cons.
    erewrite bind_run_raise; [reflexivity|].
    cbv zeta. unfold extra_info_getitem, mbind, M_bind. now rewrite Hbad.
  - rewrite <- app_comm_cons, for_cons.
    erewrite bind_run_ok by (apply readout_step_ok; exact Hx).
    now rewrite IH.
Qed.

End ReadoutLoop.

(** X22. [display_extra_info] shows one message box per selected shape,
    in order, each headed by the text of the whole selection, and never
    changes the panel. It stops at the first shape without an entry in
    [extra_info]: the boxes of the shapes before it have been shown, then
    [KeyError] is raised and the remaining shapes get none. *)
Theorem readout_per_shape
    (F : Type) (fsub fadd fdiv : F -> F -> F) (two : F) (fmt_f : F -> string)
    (bbox_Get : ThreeD.shape -> F * F * F * F * F * F)
    (str_shapes : list ThreeD.shape -> string)
    (s : ThreeD.panel) (pre rest : list ThreeD.shape) (bad : ThreeD.shape) :
  let box shp := fun x : ThreeD.shape =>
    MessageBox
      (ThreeD.join_lines
         (([str_shapes shp; ""]
           ++ ThreeD.bbox_lines F fsub fadd fdiv two fmt_f bbox_Get x ++ [""])
          ++ List.map ThreeD.prop_line
               (default [] (ThreeD.extra_info s !! x : option ThreeD.props)))%list)
      "Part Info" in
  Forall (fun x => is_Some (ThreeD.extra_info s !! x)) pre ->
  ThreeD.display_extra_info F fsub fadd fdiv two fmt_f bbox_Get str_shapes pre s
  = (Ok tt, s, List.map (box pre) pre)
  /\ (ThreeD.extra_info s !! bad = None ->
      ThreeD.display_extra_info F fsub fadd fdiv two fmt_f bbox_Get str_shapes
        (pre ++ bad :: rest)%list s
      = (Raise (Exn KeyError (pretty bad)), s,
         List.map (box (pre ++ bad :: rest)%list) pre)).
Proof.
  intros box Hpre. unfold ThreeD.display_extra_info. split.
  - now apply readout_loop_ok.
  - intros Hbad. now apply readout_loop_stops.
Qed.

Lemma readout_per_shape_witness :
  let s := ThreeD.final (ThreeD.display_part
                           (Scenario.fair "" true Scenario.empty_module)
                           Scenario.a_part Scenario.fresh) in
  ThreeD.display_extra_info Z Z.sub Z.add Z.div 2 pretty
    (fun _ => (0, 0, 0, 4, 6, 8)) (fun _ => "[5, 9]") [5%nat; 9%nat] s
  = (Raise (Exn KeyError "9"), s,
     [MessageBox
        (ThreeD.join_lines
           [ "[5, 9]"; ""; "Bounding box :"; "  dx=4, dy=6, dz=8.";
             "Bounding box center :"; "  x=2, y=3, z=4"; "";
             " mass : 12.5 [kg]" ])
        "Part Info"]).
Proof.
  intros s.
  exact (proj2 (readout_per_shape Z Z.sub Z.add Z.div 2 pretty
                  (fun _ => (0, 0, 0, 4, 6, 8)) (fun _ => "[5, 9]") s
                  [5%nat] [] 9%nat
                  (@List.Forall_cons _
                     (fun x => is_Some (ThreeD.extra_info s !! x)) 5%nat []
                     (ex_intro _ (ThreeD.properties Scenario.a_part) eq_refl)
                     (@List.Forall_nil _ _)))
           eq_refl).
Defined.

(** ** The STEPZIP branch, assemblies and scripts *)

Section MoreRuns.
Import ThreeD Registry Logic.
Local Open Scope list_scope.
Variable w : world.

(** The display methods emit no event at all. *)
Lemma display_part_silent p s : events (display_part w p s) = [].
Proof.
  assert (H := emits_display_part w (fun _ => False) p s).
  destruct (events (display_part w p s)); [reflexivity | now inversion H].
Qed.

(** The parts of an assembly, all displayable: the loop returns, and
    every part has its shape registered at the end. *)
Lemma parts_loop_run (l : list part) s :
  Forall (displayable w) l ->
  exists s',
    for_ l (display_part w) s = (Ok tt, s', [])
    /\ registry_grows s s'
    /\ busy_info s' = busy_info s
    /\ forall p sh, In p l -> transformed_shape p = Ok sh ->
                    is_Some (extra_info s' !! sh).
Proof.
  intros H. revert s. induction H as [|p l (sh & an & Hs & Hd & Ha) _ IH]; intros s.
  - exists s. repeat split; [now intros k Hk | intros p sh []].
  - rewrite for_cons.
    erewrite bind_run_ok by (apply display_part_ok; eassumption).
    edestruct IH as (s' & -> & Hg & Hb & Hall).
    exists s'. repeat split.
    + intros k Hk. apply Hg. cbn [extra_info].
      apply lookup_insert_is_Some'. now right.
    + exact Hb.
    + intros p' sh' [<-|Hin] Hs'.
      * apply Hg. cbn [extra_info]. apply lookup_insert_is_Some'. left.
        congruence.
      * now apply (Hall p' sh').
Qed.

(** The importer calls of an import under its busy indicator are its own
    call and those of its body. *)
Lemma window_imports msg call sel (body : M unit) s :
  imports (events ((new_busy_info msg ;;
                    try_finally
                      (try_except (emit (Import call sel) ;; body)
                         is_Exception log_error)
                      del_busy_info) s))
  = call :: imports (events (body (with_busy (Some msg) s))).
Proof.
  unfold new_busy_info, del_busy_info, try_finally, try_except, log_error,
    emit, modify, mbind, M_bind, events. cbn [fst snd].
  fold (with_busy (Some msg) s).
  destruct (body (with_busy (Some msg) s)) as [[[[]|e] s1] t1];
    [|destruct (is_Exception e)];
    cbn [fst snd app];
    change (imports (BusyInfo msg :: Import call sel :: ?l))
      with (call :: imports l);
    rewrite !imports_app;
    change (imports [DelBusyInfo]) with (@nil importer);
    try change (imports [Log ERROR (exn_msg e)]) with (@nil importer);
    now rewrite ?app_nil_r.
Qed.

End MoreRuns.

(** X23. When the STEPZIP importer returns a displayable part, the
    earlier scene is replaced by that part - its shape, then two vectors
    and a name per anchor - its properties are stored under its shape,
    the view is fitted once and the busy indicator is gone. *)
Theorem stepzip_import_shows_part
    (w : ThreeD.world) (sel : string) (s : ThreeD.panel) (p : ThreeD.part)
    (sh : ThreeD.shape) (an : list string) :
  ThreeD.anchorable_part_from_stepzip w sel = Ok p ->
  ThreeD.transformed_shape p = Ok sh ->
  ThreeD.display_error w sh = None ->
  ThreeD.transformed_anchors p = Ok an ->
  ThreeD.on_stepzip w sel s
  = (Ok tt,
     {| ThreeD.shown := ThreeD.ShapeItem sh :: Registry.anchor_items an;
        ThreeD.extra_info := <[sh := ThreeD.properties p]> (ThreeD.extra_info s);
        ThreeD.busy_info := None |},
     [ BusyInfo "Loading STEPZIP ...";
       Import anchorable_part_from_stepzip_call sel; FitAll; DelBusyInfo ]).
Proof.
  intros Hp Hs Hd Ha. unfold ThreeD.on_stepzip. rewrite erase_then.
  erewrite window_returns.
  2:{ rewrite Hp, lift_then.
      erewrite bind_run_ok by (apply display_part_ok; eassumption).
      unfold ThreeD.emit. reflexivity. }
  reflexivity.
Qed.

Lemma stepzip_import_shows_part_witness :
  ThreeD.shown
    (ThreeD.final
       (ThreeD.on_stepzip (Scenario.fair "" true Scenario.empty_module)
          "/project/bracket.stepzip" (Scenario.showing 7%nat)))
  = [ThreeD.ShapeItem 5%nat; ThreeD.VectorItem; ThreeD.VectorItem;
     ThreeD.MessageItem "top"].
Proof.
  exact (f_equal (fun o => ThreeD.shown (ThreeD.final o))
           (stepzip_import_shows_part
              (Scenario.fair "" true Scenario.empty_module)
              "/project/bracket.stepzip" (Scenario.showing 7%nat)
              Scenario.a_part 5%nat ["top"] eq_refl eq_refl eq_refl eq_refl)).
Defined.

(** X24. Displaying an assembly whose parts are all displayable returns
    without logging anything, keeps the busy indicator and every earlier
    entry of [extra_info], and leaves every part inspectable: the shape
    of each part has an entry in [extra_info] afterwards. *)
Theorem display_assembly_registers_parts
    (w : ThreeD.world) (a : ThreeD.assembly) (s : ThreeD.panel) :
  Forall (Registry.displayable w) (ThreeD._parts a) ->
  exists s',
    ThreeD.display_assembly w a s = (Ok tt, s', [])
    /\ Registry.registry_grows s s'
    /\ ThreeD.busy_info s' = ThreeD.busy_info s
    /\ forall p sh, In p (ThreeD._parts a) ->
                    ThreeD.transformed_shape p = Ok sh ->
                    is_Some (ThreeD.extra_info s' !! sh).
Proof. intros H. exact (parts_loop_run w (ThreeD._parts a) s H). Qed.

Lemma display_assembly_registers_parts_witness :
  exists s',
    ThreeD.display_assembly (Scenario.fair "" true Scenario.empty_module)
      {| ThreeD._parts := [Scenario.a_part] |} Scenario.fresh
    = (Ok tt, s', [])
    /\ Registry.registry_grows Scenario.fresh s'
    /\ ThreeD.busy_info s' = ThreeD.busy_info Scenario.fresh
    /\ forall p sh, In p [Scenario.a_part] ->
                    ThreeD.transformed_shape p = Ok sh ->
                    is_Some (ThreeD.extra_info s' !! sh).
Proof.
  apply (display_assembly_registers_parts
           (Scenario.fair "" true Scenario.empty_module)
           {| ThreeD._parts := [Scenario.a_part] |} Scenario.fresh).
  constructor; [|constructor].
  exists 5%nat, ["top"]. repeat split.
Defined.

(** X25. A valid script that defines [__shape__] and [__anchors__], and
    none of [__shapes__], [__assembly__], [__assemblies__], is imported
    twice: once by [imp.load_source] and once more by
    [anchorable_part_from_py_script], whatever the second import gives. *)
Theorem anchored_script_imported_twice
    (w : ThreeD.world) (sel content : string) (s : ThreeD.panel)
    (m : ThreeD.module_) (sh : ThreeD.shape) :
  ThreeD.read_text w sel = Ok content ->
  ThreeD.is_valid_python w content = true ->
  ThreeD.load_source w sel = Ok m ->
  ThreeD.__shapes__ m = None ->
  ThreeD.__assembly__ m = None ->
  ThreeD.__assemblies__ m = None ->
  ThreeD.__shape__ m = Some sh ->
  ThreeD.__anchors__ m = true ->
  ThreeD.imports (ThreeD.events (ThreeD.on_py w sel s))
  = [imp_load_source; anchorable_part_from_py_script_call].
Proof.
  intros Hread Hv Hload H1 H2 H3 H4 H5.
  rewrite (on_py_run w sel content s Hread), Hv, window_imports.
  rewrite Hload, lift_then. unfold ThreeD.display_module.
  rewrite erase_then, H1, H2, H3, H4, H5. cbn [negb].
  f_equal.
  destruct (ThreeD.anchorable_part_from_py_script w sel) as [p|e] eqn:Hp.
  - unfold mbind, ThreeD.M_bind, ThreeD.emit, ThreeD.lift, ThreeD.events.
    cbn [fst snd].
    assert (Hsil := display_part_silent w p).
    unfold ThreeD.events in Hsil.
    match goal with
    | |- context [ThreeD.display_part w p ?s0] =>
        specialize (Hsil s0);
        destruct (ThreeD.display_part w p s0) as [[[[]|e] s1] t1]
    end; cbn [fst snd] in *; subst t1; reflexivity.
  - reflexivity.
Qed.

Lemma anchored_script_imported_twice_witness :
  let m := {| ThreeD.__shape__ := Some 1%nat; ThreeD.__shapes__ := None;
              ThreeD.__anchors__ := true; ThreeD.__properties__ := false;
              ThreeD.__assembly__ := None; ThreeD.__assemblies__ := None |} in
  ThreeD.imports
    (ThreeD.events (ThreeD.on_py (Scenario.fair "__shape__ = box" true m)
                      "/project/part.py" Scenario.fresh))
  = [imp_load_source; anchorable_part_from_py_script_call].
Proof.
  intros m.
  exact (anchored_script_imported_twice (Scenario.fair "__shape__ = box" true m)
           "/project/part.py" "__shape__ = box" Scenario.fresh m 1%nat
           eq_refl eq_refl eq_refl eq_refl eq_refl eq_refl eq_refl eq_refl).
Defined.

(** ** Files without an extension *)

Section PlainNames.
Import PyStr OsPath.

Lemma rfind_app_lacks (c : ascii) (a b : string) :
  lacks c b = true -> rfind c (a +:+ b) = rfind c a.
Proof.
  intros Hb. induction a as [|x a IH].
  - change ("" +:+ b) with b. now rewrite (rfind_lacks _ _ Hb).
  - change (rfind c (String x a +:+ b))
      with (let j := rfind c (a +:+ b) in
            if 0 <=? j then j + 1 else if Ascii.eqb x c then 0 else -1).
    now rewrite IH.
Qed.

Lemma rfind_lt (c : ascii) (s : string) : rfind c s < Z.of_nat (String.length s).
Proof.
  induction s as [|x s IH]; cbn [rfind String.length]; [lia|].
  destruct (Z.leb_spec 0 (rfind c s)); [lia|].
  destruct (Ascii.eqb x c); lia.
Qed.

Lemma append_assoc3 (a b c : string) : (a +:+ b) +:+ c = a +:+ (b +:+ c).
Proof.
  induction a as [|x a IH]; [reflexivity|].
  change (String x ((a +:+ b) +:+ c) = String x (a +:+ (b +:+ c))).
  now rewrite IH.
Qed.

Lemma slice_to_0 (s : string) : slice_to 0 s = "".
Proof.
  unfold slice_to, bound. cbn [Z.ltb Z.compare].
  replace (Z.to_nat (Z.min (Z.of_nat (String.length s)) 0)) with O by lia.
  now destruct s.
Qed.

(** A path whose last component has no period has no extension. *)
Lemma splitext_plain (dir name : string) :
  (dir = "" \/ exists d, dir = d +:+ "/") ->
  lacks "/" name = true -> lacks "." name = true ->
  splitext (dir +:+ name) = (dir +:+ name, "").
Proof.
  intros Hdir Hsep Hdot. unfold splitext. rewrite slice_to_0.
  assert (Hle : rfind "." (dir +:+ name) <= rfind "/" (dir +:+ name)).
  { destruct Hdir as [-> | (d & ->)].
    - change ("" +:+ name) with name.
      rewrite (rfind_lacks _ _ Hsep), (rfind_lacks _ _ Hdot). lia.
    - rewrite (rfind_app_lacks "." (d +:+ "/") name Hdot).
      rewrite (rfind_app_lacks "." d "/" eq_refl).
      rewrite append_assoc3. change ("/" +:+ name) with (String "/" name).
      rewrite (rfind_last "/" d name Hsep).
      pose proof (rfind_lt "." d). lia. }
  destruct (Z.gtb_spec (rfind "." (dir +:+ name)) (rfind "/" (dir +:+ name)));
    [lia | reflexivity].
Qed.

End PlainNames.

(** X26. A selected file whose name - the part after the last "/" - has
    no period has the empty extension: no importer is called, the
    viewport is emptied and the error about an unhandled extension is
    logged, with nothing between "extension" and "that". *)
Theorem plain_name_not_handled
    (w : ThreeD.world) (model : Model.t) (s : ThreeD.panel) (dir name : string) :
  Model.selected model = dir +:+ name ->
  (dir = "" \/ exists d, dir = d +:+ "/") ->
  PyStr.lacks "/" name = true ->
  PyStr.lacks "." name = true ->
  ThreeD.isdir w (dir +:+ name) = false ->
  ThreeD.on_selected_change w model s
  = (Ok tt,
     {| ThreeD.shown := []; ThreeD.extra_info := ThreeD.extra_info s;
        ThreeD.busy_info := ThreeD.busy_info s |},
     [ Log DEBUG "Selection changed";
       Log DEBUG ("sel : " +:+ dir +:+ name);
       Log INFO "File extension : ";
       Log ERROR "File has an extension  that is not handled by the 3D panel";
       Layout;
       Log DEBUG "code change detected in 3D panel" ]).
Proof.
  intros Hsel Hdir Hsep Hdot Hfile.
  unfold ThreeD.on_selected_change. rewrite Hsel, Hfile.
  rewrite (splitext_plain dir name Hdir Hsep Hdot).
  reflexivity.
Qed.

Lemma plain_name_not_handled_witness :
  ThreeD.on_selected_change (Scenario.fair "" true Scenario.empty_module)
    (Scenario.select "/project/v1.2/README") (Scenario.showing 7%nat)
  = (Ok tt, Scenario.fresh,
     [ Log DEBUG "Selection changed";
       Log DEBUG "sel : /project/v1.2/README";
       Log INFO "File extension : ";
       Log ERROR "File has an extension  that is not handled by the 3D panel";
       Layout;
       Log DEBUG "code change detected in 3D panel" ]).
Proof.
  exact (plain_name_not_handled (Scenario.fair "" true Scenario.empty_module)
           (Scenario.select "/project/v1.2/README") (Scenario.showing 7%nat)
           "/project/v1.2/" "README" eq_refl
           (or_intror (ex_intro _ "/project/v1.2" eq_refl))
           eq_refl eq_refl eq_refl).
Defined.
